(** * ChatBuddy content script: the toxicity analyzer

    A shallow embedding of the [ToxicityAnalyzer] class of the content
    script: the message filter, the DOM text extraction, the bounded
    conversation buffer, the throttled analysis trigger, the remote call
    with its failure paths, the response parser and the streak-driven
    renderer.  Handlers are state transformers on a record holding the
    fields of the class; the clock, the page address, the DOM batches and
    the outcome of the remote call are inputs chosen by the environment. *)

From Stdlib Require Import String Ascii.
From Stdlib Require Import DecimalString.
From Stdlib Require Import List ZArith NArith Lia Bool.
Import ListNotations.

Set Implicit Arguments.

(** ** JavaScript strings

    A JavaScript string is a sequence of UTF-16 code units; [length],
    [startsWith], [includes], [split], [replace] and [trim] all work on
    code units. *)

Module JS.

Abbreviation char := N (only parsing).
Abbreviation jsstring := (list N) (only parsing).

(** An ASCII literal as a JavaScript string. *)
Definition lit (s : string) : jsstring :=
  map N_of_ascii (list_ascii_of_string s).
Arguments lit s%_string.

Definition LF : char := 10%N.
Definition SPACE : char := 32%N.
Definition COMMA : char := 44%N.

Fixpoint str_eqb (a b : jsstring) : bool :=
  match a, b with
  | [], [] => true
  | x :: a', y :: b' => N.eqb x y && str_eqb a' b'
  | _, _ => false
  end.

(** [s === ''] is the only falsy string. *)
Definition truthy (s : jsstring) : bool :=
  match s with [] => false | _ :: _ => true end.

(** WhiteSpace and LineTerminator code points of ECMAScript: what
    [String.prototype.trim] strips and what [\s] matches. *)
Definition isWhiteSpace (c : char) : bool :=
  ((9 <=? c) && (c <=? 13) || (c =? 32) || (c =? 160) || (c =? 5760)
   || (8192 <=? c) && (c <=? 8202) || (c =? 8232) || (c =? 8233)
   || (c =? 8239) || (c =? 8287) || (c =? 12288) || (c =? 65279))%N.

Fixpoint trimStart (s : jsstring) : jsstring :=
  match s with
  | [] => []
  | c :: t => if isWhiteSpace c then trimStart t else s
  end.

Fixpoint trimEnd (s : jsstring) : jsstring :=
  match s with
  | [] => []
  | c :: t =>
      match trimEnd t with
      | [] => if isWhiteSpace c then [] else [c]
      | t' => c :: t'
      end
  end.

Definition trim (s : jsstring) : jsstring := trimEnd (trimStart s).

Fixpoint startsWith (p s : jsstring) : bool :=
  match p, s with
  | [], _ => true
  | x :: p', y :: s' => N.eqb x y && startsWith p' s'
  | _ :: _, [] => false
  end.

(** [s.includes(p)]: [p] occurs somewhere in [s]. *)
Fixpoint includes (p s : jsstring) : bool :=
  startsWith p s ||
  match s with
  | [] => false
  | _ :: t => includes p t
  end.

(** [s.replace(p, r)] for a string pattern: the first occurrence only
    (the replacement texts used here hold no [$]). *)
Fixpoint replace (p r s : jsstring) : jsstring :=
  if startsWith p s then r ++ skipn (length p) s
  else match s with
       | [] => []
       | c :: t => c :: replace p r t
       end.

(** [s.split(sep)] for a one-character separator: always at least one
    piece, [''.split(',')] is [['']]. *)
Fixpoint split (sep : char) (s : jsstring) : list jsstring :=
  match s with
  | [] => [[]]
  | c :: t =>
      if N.eqb c sep then [] :: split sep t
      else match split sep t with
           | [] => [[c]]
           | piece :: rest => (c :: piece) :: rest
           end
  end.

(** [arr.join(sep)]. *)
Fixpoint join (sep : jsstring) (l : list jsstring) : jsstring :=
  match l with
  | [] => []
  | [x] => x
  | x :: rest => x ++ sep ++ join sep rest
  end.

(** [arr.includes(x)] on an array of strings. *)
Definition arrayIncludes (x : jsstring) (l : list jsstring) : bool :=
  existsb (str_eqb x) l.

(** [arr.slice(start)]: a negative [start] counts from the end. *)
Definition slice (A : Type) (start : Z) (l : list A) : list A :=
  let len := Z.of_nat (length l) in
  let k := if (start <? 0)%Z then Z.max (len + start) 0 else Z.min start len in
  skipn (Z.to_nat k) l.

(** [x || d] on a number that may be missing: [undefined], [null], [NaN]
    and [0] are all falsy. *)
Definition orDefault (x : option Z) (d : Z) : Z :=
  match x with
  | Some v => if (v =? 0)%Z then d else v
  | None => d
  end.

End JS.

Import JS.

(** ** The message filter *)

Definition isDigit (c : char) : bool := ((48 <=? c) && (c <=? 57))%N.

(** [[:.]] *)
Definition isClockSep (c : char) : bool := ((c =? 58) || (c =? 46))%N.

Definition twoDigits (s : jsstring) : bool :=
  match s with
  | a :: b :: _ => isDigit a && isDigit b
  | _ => false
  end.

Definition sepTwoDigits (s : jsstring) : bool :=
  match s with
  | c :: r => isClockSep c && twoDigits r
  | [] => false
  end.

(** [/^\d{1,2}[:.]\d{2}/]: one or two digits, a separator, two digits, at
    the start of the text. *)
Definition matchesTimestamp (text : jsstring) : bool :=
  match text with
  | d :: r =>
      isDigit d &&
      (sepTwoDigits r ||
       match r with
       | d2 :: r2 => isDigit d2 && sepTwoDigits r2
       | [] => false
       end)
  | [] => false
  end.

(** A member of [[\d\s:apm]] under the [i] flag. *)
Definition isTimeChar (c : char) : bool :=
  isDigit c || isWhiteSpace c ||
  ((c =? 58) || (c =? 97) || (c =? 112) || (c =? 109)
   || (c =? 65) || (c =? 80) || (c =? 77))%N.

(** [/^[\d\s:apm]+$/i]: the whole text, not empty, is made of time
    characters. *)
Definition matchesOnlyTime (text : jsstring) : bool :=
  truthy text && forallb isTimeChar text.

(** [isUserMessage(text)], as its truth value (the JavaScript function
    returns ['']  for the empty text and a boolean otherwise; every caller
    tests the result in a condition). *)
Definition isUserMessage (text : jsstring) : bool :=
  truthy text &&
  (2 <? length text)%nat &&
  (length text <? 300)%nat &&
  negb (matchesTimestamp text) &&
  negb (matchesOnlyTime text) &&
  negb (includes (lit "http") text) &&
  negb (includes (lit "@") text) &&
  (1 <? length (split SPACE text))%nat.

(** The whitespace-delimited tokens of a text: the maximal runs of
    characters that are not whitespace. *)
Fixpoint splitWhen (f : char -> bool) (s : jsstring) : list jsstring :=
  match s with
  | [] => [[]]
  | c :: t =>
      if f c then [] :: splitWhen f t
      else match splitWhen f t with
           | [] => [[c]]
           | piece :: rest => (c :: piece) :: rest
           end
  end.

Definition wsTokens (s : jsstring) : list jsstring :=
  filter truthy (splitWhen isWhiteSpace s).

(** ** The page: mutation batches and text extraction *)

Inductive Platform := whatsapp | messenger | telegram | discord | unknown.

(** [detectPlatform()], from [window.location.href]. *)
Definition detectPlatform (href : jsstring) : Platform :=
  if includes (lit "web.whatsapp.com") href then whatsapp
  else if includes (lit "messenger.com") href then messenger
  else if includes (lit "web.telegram.org") href then telegram
  else if includes (lit "discord.com") href then discord
  else unknown.

(** The CSS selectors the extractors query, in the order of the source:
    the conversation-panel message container, [.message-in],
    [.message-out], [.selectable-text] (WhatsApp); the log rows, the
    elements labelled Message, [.msg] (Messenger); [.message], [.bubble]
    (Telegram); the chat-messages list items, the message content
    (Discord). *)
Inductive Selector :=
| WaMsgContainer | WaMessageIn | WaMessageOut | WaSelectableText
| MsLogRow | MsAriaMessage | MsMsg
| TgMessage | TgBubble
| DcListMessage | DcMessageContent.

(** A DOM node as the extractors see it: its type, its text content and,
    for each selector, the text contents of the matching descendants in
    document order. *)
Record Node := {
  nodeType : N;
  textContent : jsstring;
  querySelectorAll : Selector -> list jsstring
}.

Definition ELEMENT_NODE : N := 1%N.

Inductive MutationType := childList | attributes | characterData.

Record MutationRecord := {
  mtype : MutationType;
  addedNodes : list Node
}.

(** The two nested [for] loops of an extractor: the first matching
    element, over the selectors in order, whose text passes the filter;
    the text of the node itself when there is none. *)
Fixpoint firstUserText (node : Node) (selectors : list Selector)
  : option jsstring :=
  match selectors with
  | [] => None
  | sel :: rest =>
      match find (fun text => truthy text && isUserMessage text)
                 (querySelectorAll node sel) with
      | Some text => Some text
      | None => firstUserText node rest
      end
  end.

Definition extractWith (selectors : list Selector) (node : Node) : jsstring :=
  match firstUserText node selectors with
  | Some text => text
  | None => textContent node
  end.

Definition extractWhatsAppMessage : Node -> jsstring :=
  extractWith [WaMsgContainer; WaMessageIn; WaMessageOut; WaSelectableText].

Definition extractMessengerMessage : Node -> jsstring :=
  extractWith [MsLogRow; MsAriaMessage; MsMsg].

Definition extractTelegramMessage : Node -> jsstring :=
  extractWith [TgMessage; TgBubble].

Definition extractDiscordMessage : Node -> jsstring :=
  extractWith [DcListMessage; DcMessageContent].

(** [extractMessageText(node)]; the DOM reads of the model do not throw,
    so the [catch] branch is not taken. *)
Definition extractMessageText (href : jsstring) (node : Node) : jsstring :=
  let text :=
    match detectPlatform href with
    | whatsapp => extractWhatsAppMessage node
    | messenger => extractMessengerMessage node
    | telegram => extractTelegramMessage node
    | discord => extractDiscordMessage node
    | unknown => textContent node
    end in
  if truthy text then trim text else [].

(** [Set.prototype.add] on a set kept in insertion order. *)
Definition setAdd (x : jsstring) (s : list jsstring) : list jsstring :=
  if arrayIncludes x s then s else s ++ [x].

Definition addNodeText (href : jsstring) (messages : list jsstring)
  (node : Node) : list jsstring :=
  if N.eqb (nodeType node) ELEMENT_NODE then
    let text := extractMessageText href node in
    if truthy text && isUserMessage text then setAdd text messages
    else messages
  else messages.

Definition addMutationTexts (href : jsstring) (messages : list jsstring)
  (mutation : MutationRecord) : list jsstring :=
  match mtype mutation with
  | childList => fold_left (addNodeText href) (addedNodes mutation) messages
  | _ => messages
  end.

(** [extractNewMessages(mutations)]: the texts of the added element nodes
    that pass the filter, without repetition, in order of first
    appearance. *)
Definition extractNewMessages (href : jsstring)
  (mutations : list MutationRecord) : list jsstring :=
  fold_left (addMutationTexts href) mutations [].

(** ** The response parser *)

Record AnalysisResult := {
  level : jsstring;
  toxicPerson : jsstring;
  behaviors : list jsstring;
  problem : jsstring;
  suggestion : jsstring
}.

Definition levels : list jsstring :=
  [lit "Low"; lit "Medium"; lit "High"; lit "None"].

Definition persons : list jsstring :=
  [lit "Person A"; lit "Person B"; lit "Both"; lit "None"].

Definition defaultResult : AnalysisResult :=
  {| level := lit "None";
     toxicPerson := lit "None";
     behaviors := [lit "No toxic behaviors detected"];
     problem := lit "No significant issues";
     suggestion := lit "Keep up the good communication" |}.

(** [cleanLine.replace(label, '').trim()] *)
Definition labelValue (label cleanLine : jsstring) : jsstring :=
  trim (replace label [] cleanLine).

(** [behaviors.split(',').map(b => b.trim()).filter(b => b)] *)
Definition behaviorItems (value : jsstring) : list jsstring :=
  filter truthy (map trim (split COMMA value)).

(** The body of the [forEach] over the lines. *)
Definition parseLine (result : AnalysisResult) (line : jsstring)
  : AnalysisResult :=
  let cleanLine := trim line in
  if startsWith (lit "Level:") cleanLine then
    let lvl := labelValue (lit "Level:") cleanLine in
    {| level := if arrayIncludes lvl levels then lvl else lit "None";
       toxicPerson := toxicPerson result;
       behaviors := behaviors result;
       problem := problem result;
       suggestion := suggestion result |}
  else if startsWith (lit "ToxicPerson:") cleanLine then
    let person := labelValue (lit "ToxicPerson:") cleanLine in
    {| level := level result;
       toxicPerson := if arrayIncludes person persons then person
                      else lit "None";
       behaviors := behaviors result;
       problem := problem result;
       suggestion := suggestion result |}
  else if startsWith (lit "Behaviors:") cleanLine then
    let value := labelValue (lit "Behaviors:") cleanLine in
    if truthy value && negb (includes (lit "No toxic behaviors") value) then
      {| level := level result;
         toxicPerson := toxicPerson result;
         behaviors := behaviorItems value;
         problem := problem result;
         suggestion := suggestion result |}
    else result
  else if startsWith (lit "Problem:") cleanLine then
    let value := labelValue (lit "Problem:") cleanLine in
    if truthy value && negb (includes (lit "No significant issues") value) then
      {| level := level result;
         toxicPerson := toxicPerson result;
         behaviors := behaviors result;
         problem := value;
         suggestion := suggestion result |}
    else result
  else if startsWith (lit "Suggestion:") cleanLine then
    let value := labelValue (lit "Suggestion:") cleanLine in
    if truthy value
       && negb (includes (lit "Keep up the good communication") value) then
      {| level := level result;
         toxicPerson := toxicPerson result;
         behaviors := behaviors result;
         problem := problem result;
         suggestion := value |}
    else result
  else result.

(** [parseAnalysis(analysis)] *)
Definition parseAnalysis (analysis : jsstring) : AnalysisResult :=
  fold_left parseLine (split LF analysis) defaultResult.

(** ** The renderer *)

Inductive PersonStatus := toxic | moderate | good | neutral.

(** [getPersonStatus(person, toxicPerson)] *)
Definition getPersonStatus (person toxicPerson : jsstring) : PersonStatus :=
  if str_eqb toxicPerson (lit "Person " ++ person) then toxic
  else if str_eqb toxicPerson (lit "Both") then moderate
  else if str_eqb toxicPerson (lit "None") then good
  else neutral.

(** [getStatusText(status)] *)
Definition getStatusText (status : PersonStatus) : jsstring :=
  match status with
  | toxic => lit "Needs Attention"
  | moderate => lit "Some Concerns"
  | good => lit "Good"
  | neutral => lit "Neutral"
  end.

Inductive LevelEmoji := RedCircle | YellowCircle | GreenCircle | WhiteCircle.

(** What the detail markup is built from. *)
Record DetailCard := {
  cardLevel : jsstring;
  cardEmoji : LevelEmoji;
  cardTitle : jsstring;
  personAStatus : PersonStatus;
  personBStatus : PersonStatus;
  behaviorTags : list jsstring;
  example : option jsstring;
  suggestionContent : jsstring
}.

(** The two markups [renderAnalysis] can return. *)
Inductive RenderModel :=
| PositiveFeedback
| Detail (card : DetailCard).

(** [renderAnalysis(analysis)], reading [this.consecutiveEmptyAnalyses]. *)
Definition renderAnalysis (consecutiveEmptyAnalyses : N)
  (analysis : AnalysisResult) : RenderModel :=
  let levelEmoji :=
    if str_eqb (level analysis) (lit "High") then RedCircle
    else if str_eqb (level analysis) (lit "Medium") then YellowCircle
    else if str_eqb (level analysis) (lit "Low") then GreenCircle
    else WhiteCircle in
  let personA := getPersonStatus (lit "A") (toxicPerson analysis) in
  let personB := getPersonStatus (lit "B") (toxicPerson analysis) in
  if (2 <=? consecutiveEmptyAnalyses)%N
     && str_eqb (level analysis) (lit "None") then PositiveFeedback
  else
    Detail
      {| cardLevel := level analysis;
         cardEmoji := levelEmoji;
         cardTitle := if str_eqb (level analysis) (lit "None")
                      then lit "No Toxicity Detected"
                      else lit "Toxicity: " ++ level analysis;
         personAStatus := personA;
         personBStatus := personB;
         behaviorTags := behaviors analysis;
         example := if str_eqb (problem analysis) (lit "No significant issues")
                    then None else Some (problem analysis);
         suggestionContent := suggestion analysis |}.

(** ** The analyzer object *)

(** The settings payload of a [startAnalysis] message; before the first
    start [this.settings] is the empty object, with every field missing.
    A number that is missing ([undefined], or [NaN] out of [parseInt]) is
    [None]. *)
Record Settings := {
  apiKey : option jsstring;
  analysisDelay : option Z;
  messageCount : option Z;
  sensitivity : option jsstring
}.

Definition noSettings : Settings :=
  {| apiKey := None; analysisDelay := None; messageCount := None;
     sensitivity := None |}.

(** What the content pane of the indicator shows. *)
Inductive Content :=
| ListeningCard
| LoadingCard (count : nat)
| ErrorCard (message : jsstring)
| MessageCard (message kind : jsstring)
| AnalysisCard (view : RenderModel).

(** The indicator element: its content pane and whether it carries the
    class [toxicity-hidden].  It is created by the constructor and never
    dropped, so [this.indicator] is always set. *)
Record Indicator := {
  content : Content;
  hidden : bool
}.

Record Analyzer := {
  isActive : bool;
  settings : Settings;
  lastAnalysisTime : Z;
  messageBuffer : list jsstring;
  analysisInProgress : bool;
  indicator : Indicator;
  observer : bool;
  consecutiveEmptyAnalyses : N
}.

Definition setIsActive (b : bool) (st : Analyzer) : Analyzer :=
  {| isActive := b; settings := settings st;
     lastAnalysisTime := lastAnalysisTime st;
     messageBuffer := messageBuffer st;
     analysisInProgress := analysisInProgress st;
     indicator := indicator st; observer := observer st;
     consecutiveEmptyAnalyses := consecutiveEmptyAnalyses st |}.

Definition setSettings (s : Settings) (st : Analyzer) : Analyzer :=
  {| isActive := isActive st; settings := s;
     lastAnalysisTime := lastAnalysisTime st;
     messageBuffer := messageBuffer st;
     analysisInProgress := analysisInProgress st;
     indicator := indicator st; observer := observer st;
     consecutiveEmptyAnalyses := consecutiveEmptyAnalyses st |}.

Definition setLastAnalysisTime (t : Z) (st : Analyzer) : Analyzer :=
  {| isActive := isActive st; settings := settings st;
     lastAnalysisTime := t;
     messageBuffer := messageBuffer st;
     analysisInProgress := analysisInProgress st;
     indicator := indicator st; observer := observer st;
     consecutiveEmptyAnalyses := consecutiveEmptyAnalyses st |}.

Definition setMessageBuffer (b : list jsstring) (st : Analyzer) : Analyzer :=
  {| isActive := isActive st; settings := settings st;
     lastAnalysisTime := lastAnalysisTime st;
     messageBuffer := b;
     analysisInProgress := analysisInProgress st;
     indicator := indicator st; observer := observer st;
     consecutiveEmptyAnalyses := consecutiveEmptyAnalyses st |}.

Definition setAnalysisInProgress (b : bool) (st : Analyzer) : Analyzer :=
  {| isActive := isActive st; settings := settings st;
     lastAnalysisTime := lastAnalysisTime st;
     messageBuffer := messageBuffer st;
     analysisInProgress := b;
     indicator := indicator st; observer := observer st;
     consecutiveEmptyAnalyses := consecutiveEmptyAnalyses st |}.

Definition setIndicator (i : Indicator) (st : Analyzer) : Analyzer :=
  {| isActive := isActive st; settings := settings st;
     lastAnalysisTime := lastAnalysisTime st;
     messageBuffer := messageBuffer st;
     analysisInProgress := analysisInProgress st;
     indicator := i; observer := observer st;
     consecutiveEmptyAnalyses := consecutiveEmptyAnalyses st |}.

Definition setObserver (b : bool) (st : Analyzer) : Analyzer :=
  {| isActive := isActive st; settings := settings st;
     lastAnalysisTime := lastAnalysisTime st;
     messageBuffer := messageBuffer st;
     analysisInProgress := analysisInProgress st;
     indicator := indicator st; observer := b;
     consecutiveEmptyAnalyses := consecutiveEmptyAnalyses st |}.

Definition setConsecutiveEmptyAnalyses (n : N) (st : Analyzer) : Analyzer :=
  {| isActive := isActive st; settings := settings st;
     lastAnalysisTime := lastAnalysisTime st;
     messageBuffer := messageBuffer st;
     analysisInProgress := analysisInProgress st;
     indicator := indicator st; observer := observer st;
     consecutiveEmptyAnalyses := n |}.

(** The object the constructor leaves behind. *)
Definition newAnalyzer : Analyzer :=
  {| isActive := false; settings := noSettings; lastAnalysisTime := 0%Z;
     messageBuffer := []; analysisInProgress := false;
     indicator := {| content := ListeningCard; hidden := true |};
     observer := false; consecutiveEmptyAnalyses := 0%N |}.

(** *** The indicator *)

Definition showIndicator (st : Analyzer) : Analyzer :=
  setIndicator {| content := content (indicator st); hidden := false |} st.

Definition hideIndicator (st : Analyzer) : Analyzer :=
  setIndicator {| content := content (indicator st); hidden := true |} st.

Definition setContent (c : Content) (st : Analyzer) : Analyzer :=
  setIndicator {| content := c; hidden := hidden (indicator st) |} st.

Definition showLoading (st : Analyzer) : Analyzer :=
  showIndicator (setContent (LoadingCard (length (messageBuffer st))) st).

Definition showError (message : jsstring) (st : Analyzer) : Analyzer :=
  showIndicator (setContent (ErrorCard message) st).

Definition showMessage (message kind : jsstring) (st : Analyzer) : Analyzer :=
  showIndicator (setContent (MessageCard message kind) st).

(** *** Start and stop *)

Definition startObserving (st : Analyzer) : Analyzer := setObserver true st.

Definition stopObserving (st : Analyzer) : Analyzer := setObserver false st.

Definition startAnalysis (s : Settings) (st : Analyzer) : Analyzer :=
  showMessage (lit "Active - analyzing messages as they appear...")
    (lit "loading")
    (startObserving (showIndicator (setSettings s (setIsActive true st)))).

Definition stopAnalysis (st : Analyzer) : Analyzer :=
  setConsecutiveEmptyAnalyses 0
    (setMessageBuffer []
       (hideIndicator (stopObserving (setIsActive false st)))).

(** *** The remote call *)

(** What the request carries: the key of the address and the transcript
    the fixed prompt is built around. *)
Record Request := {
  requestKey : option jsstring;
  conversation : jsstring
}.

Fixpoint labelTurns (index : nat) (messages : list jsstring)
  : list jsstring :=
  match messages with
  | [] => []
  | msg :: rest =>
      (lit "Person " ++ (if Nat.even index then lit "A" else lit "B")
         ++ lit ": " ++ msg)
      :: labelTurns (S index) rest
  end.

(** [formatConversation()] *)
Definition formatConversation (st : Analyzer) : jsstring :=
  join [LF] (labelTurns 0 (messageBuffer st)).

(** The body of a response once [response.json()] is awaited: unreadable
    (the promise rejects), or a document with its [error.message] when it
    has an [error] and the text at [candidates[0].content.parts[0].text]
    when that path exists. *)
Inductive ResponseBody :=
| BodyUnreadable (message : jsstring)
| BodyData (error : option jsstring) (text : option jsstring).

(** How [fetch] settles: rejected, or a response with [ok], [status] and
    a body. *)
Inductive FetchOutcome :=
| FetchRejected (message : jsstring)
| FetchResponse (ok : bool) (status : N) (body : ResponseBody).

Definition decimal (n : N) : jsstring :=
  lit (NilZero.string_of_uint (N.to_uint n)).

(** [sendToGemini(conversation)] from the point where [fetch] settles:
    the message of the error thrown, or the text returned. *)
Definition sendToGemini (outcome : FetchOutcome) : jsstring + jsstring :=
  match outcome with
  | FetchRejected message => inl message
  | FetchResponse ok status body =>
      if negb ok then inl (lit "API error: " ++ decimal status)
      else
        match body with
        | BodyUnreadable message => inl message
        | BodyData (Some message) _ => inl (lit "API Error: " ++ message)
        | BodyData None None => inl (lit "Invalid response from API")
        | BodyData None (Some text) =>
            if truthy text then inr text
            else inl (lit "Invalid response from API")
        end
  end.

(** [displayAnalysis(analysis)]; parsing and rendering a string do not
    throw, so the [catch] branch is not taken. *)
Definition displayAnalysis (analysis : jsstring) (st : Analyzer) : Analyzer :=
  let parsed := parseAnalysis analysis in
  let st1 :=
    if str_eqb (level parsed) (lit "None")
       && str_eqb (toxicPerson parsed) (lit "None")
    then setConsecutiveEmptyAnalyses (consecutiveEmptyAnalyses st + 1)%N st
    else setConsecutiveEmptyAnalyses 0 st in
  showIndicator
    (setContent
       (AnalysisCard (renderAnalysis (consecutiveEmptyAnalyses st1) parsed))
       st1).

(** [analyzeConversation()] up to its [await]: the guard, the gate, the
    timestamp read from the clock, the loading card and the request sent. *)
Definition analyzeConversation (now : Z) (st : Analyzer)
  : Analyzer * option Request :=
  if (length (messageBuffer st) <? 2)%nat || analysisInProgress st
  then (st, None)
  else
    let st1 := setLastAnalysisTime now (setAnalysisInProgress true st) in
    let st2 := showLoading st1 in
    (st2, Some {| requestKey := apiKey (settings st2);
                  conversation := formatConversation st2 |}).

(** [analyzeConversation()] from its [await] on, once the call has
    settled: [try], [catch] and [finally]. *)
Definition completeAnalysis (outcome : FetchOutcome) (st : Analyzer)
  : Analyzer :=
  let st1 :=
    match sendToGemini outcome with
    | inr analysis => displayAnalysis analysis st
    | inl message => showError (lit "Analysis error: " ++ message) st
    end in
  setAnalysisInProgress false st1.

(** *** The mutation observer *)

Definition maxMessages (s : Settings) : Z := orDefault (messageCount s) 10.

Definition delay (s : Settings) : Z :=
  (orDefault (analysisDelay s) 10 * 1000)%Z.

(** The body of the [forEach] over the new messages. *)
Definition pushNew (buffer : list jsstring) (msg : jsstring)
  : list jsstring :=
  if negb (arrayIncludes msg buffer) && isUserMessage msg
  then buffer ++ [msg] else buffer.

(** Keep only recent messages. *)
Definition truncate (maxMessages : Z) (buffer : list jsstring)
  : list jsstring :=
  if (maxMessages <? Z.of_nat (length buffer))%Z
  then slice (- maxMessages) buffer else buffer.

(** The callback of the [MutationObserver].  [now] is the clock read by
    the callback, [nowAtCall] the clock read by [analyzeConversation]. *)
Definition onMutations (href : jsstring) (now nowAtCall : Z)
  (mutations : list MutationRecord) (st : Analyzer)
  : Analyzer * option Request :=
  if negb (isActive st) || analysisInProgress st then (st, None)
  else
    let newMessages := extractNewMessages href mutations in
    if (0 <? length newMessages)%nat then
      let st1 :=
        setMessageBuffer (fold_left pushNew newMessages (messageBuffer st))
          st in
      let st2 :=
        setMessageBuffer
          (truncate (maxMessages (settings st1)) (messageBuffer st1)) st1 in
      if (delay (settings st2) <? now - lastAnalysisTime st2)%Z
         && (2 <=? length (messageBuffer st2))%nat
      then analyzeConversation nowAtCall st2
      else (st2, None)
    else (st, None).

(** ** The page as a whole

    The analyzer together with the remote calls that have been sent and
    have not settled yet. *)
Record World := {
  analyzer : Analyzer;
  pending : list Request
}.

Inductive Event :=
| StartMessage (s : Settings)
| StopMessage
| CloseClicked
| Mutations (href : jsstring) (now nowAtCall : Z)
    (mutations : list MutationRecord)
| CallSettled (outcome : FetchOutcome).

(** One turn of the event loop.  A batch is delivered only while an
    observer is connected; a call settles only if one is pending (the
    oldest one settles). *)
Definition step (w : World) (ev : Event) : World :=
  match ev with
  | StartMessage s =>
      {| analyzer := startAnalysis s (analyzer w); pending := pending w |}
  | StopMessage =>
      {| analyzer := stopAnalysis (analyzer w); pending := pending w |}
  | CloseClicked =>
      {| analyzer := hideIndicator (analyzer w); pending := pending w |}
  | Mutations href now nowAtCall mutations =>
      if observer (analyzer w) then
        match onMutations href now nowAtCall mutations (analyzer w) with
        | (st, Some request) =>
            {| analyzer := st; pending := pending w ++ [request] |}
        | (st, None) => {| analyzer := st; pending := pending w |}
        end
      else w
  | CallSettled outcome =>
      match pending w with
      | [] => w
      | _ :: rest =>
          {| analyzer := completeAnalysis outcome (analyzer w);
             pending := rest |}
      end
  end.

Definition run (events : list Event) (w : World) : World :=
  fold_left step events w.

(** The page when the content script has loaded. *)
Definition newWorld : World := {| analyzer := newAnalyzer; pending := [] |}.

(** ** Vocabulary of the properties *)

(** The events of a running session: everything but the start and stop
    messages. *)
Definition sessionEvent (ev : Event) : bool :=
  match ev with
  | StartMessage _ | StopMessage => false
  | CloseClicked | Mutations _ _ _ _ | CallSettled _ => true
  end.

(** The callback gets past its gate and finds new messages in the batch:
    the pushes and the truncation are executed. *)
Definition truncationRuns (href : jsstring) (mutations : list MutationRecord)
  (st : Analyzer) : bool :=
  isActive st && negb (analysisInProgress st)
  && (0 <? length (extractNewMessages href mutations))%nat.

Definition bufferLength (st : Analyzer) : Z :=
  Z.of_nat (length (messageBuffer st)).

(** The batch makes the analyzer send a remote call. *)
Definition fires (result : Analyzer * option Request) : bool :=
  match snd result with
  | Some _ => true
  | None => false
  end.

(** The ways the remote call fails: the transport rejects, the status is
    not a success, the body cannot be read, the body carries an error
    payload, or the text payload is missing or empty. *)
Inductive RemoteCallError : FetchOutcome -> Prop :=
| TransportFailure message :
    RemoteCallError (FetchRejected message)
| NonSuccessStatus status body :
    RemoteCallError (FetchResponse false status body)
| UnreadableBody status message :
    RemoteCallError (FetchResponse true status (BodyUnreadable message))
| ErrorPayload status message text :
    RemoteCallError (FetchResponse true status (BodyData (Some message) text))
| MissingText status :
    RemoteCallError (FetchResponse true status (BodyData None None))
| EmptyText status :
    RemoteCallError (FetchResponse true status (BodyData None (Some []))).

(** The parsed result is the clean one: level None and nobody toxic. *)
Definition cleanResult (r : AnalysisResult) : bool :=
  str_eqb (level r) (lit "None") && str_eqb (toxicPerson r) (lit "None").

(** [value] is what a line of [analysis] carries after [label]. *)
Definition labelled (label analysis value : jsstring) : Prop :=
  exists line,
    In line (split LF analysis) /\
    startsWith label (trim line) = true /\
    value = labelValue label (trim line).

(** What holds of the record all along the loop over the lines of
    [analysis]: each field is its default, or a recognized value that a
    labelled line carries (for the behaviors, the items of such a
    value). *)
Definition parsedFrom (analysis : jsstring) (r : AnalysisResult) : Prop :=
  (level r = lit "None" \/
   In (level r) levels /\ labelled (lit "Level:") analysis (level r)) /\
  (toxicPerson r = lit "None" \/
   In (toxicPerson r) persons /\
   labelled (lit "ToxicPerson:") analysis (toxicPerson r)) /\
  (behaviors r = [lit "No toxic behaviors detected"] \/
   exists value,
     labelled (lit "Behaviors:") analysis value /\ value <> [] /\
     includes (lit "No toxic behaviors") value = false /\
     behaviors r = behaviorItems value) /\
  (problem r = lit "No significant issues" \/
   labelled (lit "Problem:") analysis (problem r) /\ problem r <> [] /\
   includes (lit "No significant issues") (problem r) = false) /\
  (suggestion r = lit "Keep up the good communication" \/
   labelled (lit "Suggestion:") analysis (suggestion r) /\
   suggestion r <> [] /\
   includes (lit "Keep up the good communication") (suggestion r) = false).

(** A value as a well-formed reply writes it on its line: not empty, no
    white space around it, no line feed inside. *)
Definition cleanValue (v : jsstring) : Prop :=
  v <> [] /\ trim v = v /\ ~ In LF v.

(** An item of a comma separated list: a clean value without a comma. *)
Definition cleanItem (v : jsstring) : Prop :=
  cleanValue v /\ ~ In COMMA v.

(** The gate mirrors the pending calls: one call is pending while the
    gate is closed, none while it is open. *)
Definition gateMatchesPending (w : World) : Prop :=
  length (pending w) = if analysisInProgress (analyzer w) then 1%nat else 0%nat.

(** ** Sample inputs *)

(** An added element whose text is its only content. *)
Definition textNode (text : jsstring) : Node :=
  {| nodeType := ELEMENT_NODE; textContent := text;
     querySelectorAll := fun _ => [] |}.

Definition batchOf (texts : list jsstring) : list MutationRecord :=
  [{| mtype := childList; addedNodes := map textNode texts |}].

Definition somePage : jsstring := lit "https://chat.example.org/room/7".

Definition settingsOf (delaySeconds count : Z) : Settings :=
  {| apiKey := Some (lit "AIzaSyExampleExampleExampleExample");
     analysisDelay := Some delaySeconds;
     messageCount := Some count;
     sensitivity := Some (lit "medium") |}.

(** An analyzer in the middle of a session with a call in flight. *)
Definition busyAnalyzer : Analyzer :=
  fst (onMutations somePage 20000 20001
         (batchOf [lit "hi there"; lit "how are you"])
         (startAnalysis (settingsOf 10 10) newAnalyzer)).

(** A reply of the model in the format the prompt asks for. *)
Definition sampleReply : jsstring :=
  join [LF]
    [lit "Level: High";
     lit "ToxicPerson: Person A";
     lit "Behaviors: insults, sarcasm";
     lit "Problem: called other person names";
     lit "Suggestion: use respectful language"].

(** A reply that finds nothing. *)
Definition cleanReply : jsstring :=
  join [LF]
    [lit "Level: None";
     lit "ToxicPerson: None";
     lit "Behaviors: No toxic behaviors detected";
     lit "Problem: No significant issues";
     lit "Suggestion: Keep up the good communication"].

Definition replied (text : jsstring) : FetchOutcome :=
  FetchResponse true 200 (BodyData None (Some text)).

(** A session is started, two messages trigger a call, and the session
    is stopped while the call is in flight. *)
Definition stoppedInFlight : list Event :=
  [StartMessage (settingsOf 10 10);
   Mutations somePage 20000 20001
     (batchOf [lit "hi there"; lit "how are you"]);
   StopMessage].

(** An earlier session triggered its last call at 20001; the analyzer
    was then stopped and the call failed. *)
Definition stoppedAnalyzer : Analyzer :=
  analyzer
    (run (stoppedInFlight ++ [CallSettled (FetchRejected (lit "Failed to fetch"))])
       newWorld).

(** A WhatsApp page on which an added node holds two incoming message
    elements; the text of the first ends with a space. *)
Definition whatsappPage : jsstring := lit "https://web.whatsapp.com/".

Definition bubbleNode : Node :=
  {| nodeType := ELEMENT_NODE;
     textContent := lit "hello hello there";
     querySelectorAll := fun sel =>
       match sel with
       | WaMessageIn => [lit "hello "; lit "hello there"]
       | _ => []
       end |}.

(** A session of capacity 2: a first batch triggers a call, a batch is
    dropped while it is in flight, the call fails, a third message
    arrives. *)
Definition startedWorld : World :=
  step newWorld (StartMessage (settingsOf 10 2)).

Definition sampleSession : list Event :=
  [Mutations somePage 20000 20001
     (batchOf [lit "hi there"; lit "how are you"]);
   Mutations somePage 20500 20501 (batchOf [lit "how are you"]);
   CallSettled (FetchRejected (lit "Failed to fetch"));
   Mutations somePage 21000 21001 (batchOf [lit "i am fine thanks"])].

(** ** Vocabulary of the further properties *)

(** What the extraction promises of a message: it passes the filter and
    has no white space around it. *)
Definition extracted (m : jsstring) : Prop :=
  isUserMessage m = true /\ trim m = m.

(** The commercial at, the one-character pattern of the filter. *)
Definition AT : char := 64%N.

(** Every event but a start message. *)
Definition notStart (ev : Event) : bool :=
  match ev with
  | StartMessage _ => false
  | _ => true
  end.

(** A run of successful cycles: each reply is displayed in turn. *)
Definition displayAll (analyses : list jsstring) (st : Analyzer) : Analyzer :=
  fold_left (fun st analysis => displayAnalysis analysis st) analyses st.

(** How many replies at the head of a list parse to the clean result. *)
Fixpoint leadingClean (analyses : list jsstring) : nat :=
  match analyses with
  | [] => 0
  | analysis :: rest =>
      if cleanResult (parseAnalysis analysis) then S (leadingClean rest) else 0
  end.

(** How many replies at the end of a list parse to the clean result. *)
Definition trailingClean (analyses : list jsstring) : nat :=
  leadingClean (rev analyses).

(** The five labels of a reply. *)
Definition labels : list jsstring :=
  [lit "Level:"; lit "ToxicPerson:"; lit "Behaviors:"; lit "Problem:";
   lit "Suggestion:"].

(** The line, once trimmed, starts with one of the labels. *)
Definition isLabelled (line : jsstring) : bool :=
  existsb (fun label => startsWith label (trim line)) labels.

(** ** The prompt *)

Definition QUOTE : char := 34%N.

Definition quoted (s : jsstring) : jsstring := QUOTE :: s ++ [QUOTE].

(** The lines of the prompt before the transcript. *)
Definition promptHead : list jsstring :=
  [lit "Analyze this chat conversation for toxic communication patterns.";
   [];
   lit "RULES:";
   lit "- Use " ++ quoted (lit "Person A") ++ lit " and "
     ++ quoted (lit "Person B") ++ lit " only";
   lit "- Focus on communication patterns";
   lit "- Be constructive and objective";
   [];
   lit "Conversation:"].

(** The lines of the prompt after the transcript. *)
Definition promptTail : list jsstring :=
  [[];
   lit "Respond in EXACT format:";
   lit "Level: [None/Low/Medium/High]";
   lit "ToxicPerson: [Person A/Person B/Both/None]";
   lit "Behaviors: [comma separated list or "
     ++ quoted (lit "No toxic behaviors detected") ++ lit "]";
   lit "Problem: [specific example or "
     ++ quoted (lit "No significant issues") ++ lit "]";
   lit "Suggestion: [practical tip or "
     ++ quoted (lit "Keep up the good communication") ++ lit "]";
   [];
   lit "If no toxicity found, use " ++ quoted (lit "None")
     ++ lit " and positive feedback."].

(** [generatePrompt(conversation)]: the template with the transcript on
    the line after Conversation. *)
Definition generatePrompt (conversation : jsstring) : jsstring :=
  join [LF] (promptHead ++ [conversation] ++ promptTail).

(** ** The popup *)

(** What [validateApiKey] makes of the status line under the key field. *)
Inductive ApiStatus := ApiStatusHidden | ApiStatusValid | ApiStatusInvalid.

(** [validateApiKey(apiKey)] *)
Definition validateApiKey (apiKey : jsstring) : ApiStatus :=
  if negb (truthy apiKey) then ApiStatusHidden
  else if startsWith (lit "AIza") apiKey && (30 <? length apiKey)%nat
       then ApiStatusValid
       else ApiStatusInvalid.

(** The popup: its [isActive] variable and the [isActive] and
    [geminiApiKey] entries of the local storage. *)
Record Popup := {
  popupIsActive : bool;
  storedIsActive : option bool;
  storedKey : option jsstring
}.

(** How the query for the active tab and the sending of the message
    end: no tab, the message answered, or an exception. *)
Inductive SendOutcome := NoActiveTab | MessageDelivered | MessageFailed.

(** A message to the content script: its [action] and its [settings]. *)
Record ControlMessage := {
  action : jsstring;
  payload : Settings
}.

(** What one click on the toggle button leaves: the popup, the
    notification shown (its text and type) and the message that reached
    the content script. *)
Record Toggled := {
  popupAfter : Popup;
  notification : option (jsstring * jsstring);
  delivered : option ControlMessage
}.

(** [toggleAnalysis()].  [value] is the text of the key field;
    [delayValue] and [countValue] are what [parseInt] makes of the two
    selects ([None] for [NaN]), [sensitivityValue] the value of the
    third. *)
Definition toggleAnalysis (value : jsstring) (delayValue countValue : option Z)
  (sensitivityValue : jsstring) (outcome : SendOutcome) (p : Popup) : Toggled :=
  let apiKey := trim value in
  if negb (truthy apiKey) then
    {| popupAfter := p;
       notification := Some (lit "Please enter your Gemini API key",
                             lit "error");
       delivered := None |}
  else if negb (startsWith (lit "AIza") apiKey)
          || (length apiKey <? 30)%nat then
    {| popupAfter := p;
       notification := Some (lit "Please enter a valid Gemini API key",
                             lit "error");
       delivered := None |}
  else
    let active := negb (popupIsActive p) in
    let toggled :=
      {| popupIsActive := active; storedIsActive := Some active;
         storedKey := Some apiKey |} in
    match outcome with
    | NoActiveTab =>
        {| popupAfter := toggled; notification := None; delivered := None |}
    | MessageDelivered =>
        {| popupAfter := toggled;
           notification :=
             Some (if active
                   then (lit "Analysis started - switch to your chat!",
                         lit "success")
                   else (lit "Analysis stopped", lit "info"));
           delivered :=
             Some {| action := if active then lit "startAnalysis"
                               else lit "stopAnalysis";
                     payload := {| apiKey := Some apiKey;
                                   analysisDelay := delayValue;
                                   messageCount := countValue;
                                   sensitivity := Some sensitivityValue |} |} |}
    | MessageFailed =>
        if active then
          {| popupAfter := {| popupIsActive := false;
                              storedIsActive := Some false;
                              storedKey := Some apiKey |};
             notification :=
               Some (lit "Open a chat platform first (WhatsApp Web, etc.)",
                     lit "error");
             delivered := None |}
        else
          {| popupAfter := toggled; notification := None; delivered := None |}
    end.

(** The listener of the content script for the messages of the popup:
    the analyzer after the message and the status answered, if any. *)
Definition onControlMessage (message : ControlMessage) (st : Analyzer)
  : Analyzer * option jsstring :=
  if str_eqb (action message) (lit "startAnalysis")
  then (startAnalysis (payload message) st, Some (lit "started"))
  else if str_eqb (action message) (lit "stopAnalysis")
  then (stopAnalysis st, Some (lit "stopped"))
  else (st, None).

(** The click ended on one of the two notifications about the key. *)
Definition keyRefused (r : Toggled) : bool :=
  match notification r with
  | Some (text, _) =>
      str_eqb text (lit "Please enter your Gemini API key")
      || str_eqb text (lit "Please enter a valid Gemini API key")
  | None => false
  end.

(** A key of exactly thirty characters. *)
Definition thirtyKey : jsstring := lit "AIzaSyExampleExampleExampleExa".

(** * Verification *)

(** ** Strings *)

Lemma str_eqb_eq (a b : jsstring) : str_eqb a b = true <-> a = b.
Proof.
  revert b; induction a as [|x a IH]; intros [|y b]; simpl;
    try (split; [discriminate | congruence]); [tauto|].
  rewrite andb_true_iff, N.eqb_eq, IH.
  split; [intros [-> ->]; reflexivity | intros H; inversion H; auto].
Qed.

Lemma str_eqb_refl (a : jsstring) : str_eqb a a = true.
Proof. apply str_eqb_eq; reflexivity. Qed.

Lemma arrayIncludes_In (x : jsstring) (l : list jsstring) :
  arrayIncludes x l = true <-> In x l.
Proof.
  unfold arrayIncludes; rewrite existsb_exists; split.
  - intros (y & Hy & E); apply str_eqb_eq in E; subst; assumption.
  - intros H; exists x; split; [assumption | apply str_eqb_refl].
Qed.

Lemma arrayIncludes_false (x : jsstring) (l : list jsstring) :
  arrayIncludes x l = false -> ~ In x l.
Proof.
  intros E H; apply arrayIncludes_In in H; congruence.
Qed.

(** ** The filter on sample texts *)

Example isUserMessage_two_words : isUserMessage (lit "hello there") = true.
Proof. reflexivity. Qed.

Example isUserMessage_clock_first :
  isUserMessage (lit "10:45 see you") = false.
Proof. reflexivity. Qed.

Example isUserMessage_time_only : isUserMessage (lit "10 45 PM") = false.
Proof. reflexivity. Qed.

Example isUserMessage_link :
  isUserMessage (lit "look at http://x.y now") = false.
Proof. reflexivity. Qed.

Example isUserMessage_mention : isUserMessage (lit "thanks @sam") = false.
Proof. reflexivity. Qed.

Example isUserMessage_one_word : isUserMessage (lit "hello") = false.
Proof. reflexivity. Qed.

(** ** The conversation buffer *)

Lemma NoDup_snoc (A : Type) (l : list A) (x : A) :
  NoDup l -> ~ In x l -> NoDup (l ++ [x]).
Proof.
  intros Hl Hx; apply NoDup_rev in Hl.
  rewrite <- (rev_involutive (l ++ [x])); apply NoDup_rev.
  rewrite rev_app_distr; simpl; constructor; [|assumption].
  rewrite <- in_rev; assumption.
Qed.

Lemma NoDup_skipn_list (A : Type) (k : nat) (l : list A) :
  NoDup l -> NoDup (skipn k l).
Proof.
  intros H; rewrite <- (firstn_skipn k l) in H.
  eapply NoDup_app_remove_l; eassumption.
Qed.

Lemma pushNew_NoDup (buffer : list jsstring) (msg : jsstring) :
  NoDup buffer -> NoDup (pushNew buffer msg).
Proof.
  intros H; unfold pushNew.
  destruct (arrayIncludes msg buffer) eqn:E; simpl; [assumption|].
  destruct (isUserMessage msg); [|assumption].
  apply NoDup_snoc; [assumption | apply arrayIncludes_false; assumption].
Qed.

Lemma pushAll_NoDup (msgs buffer : list jsstring) :
  NoDup buffer -> NoDup (fold_left pushNew msgs buffer).
Proof.
  revert buffer; induction msgs as [|m msgs IH]; intros buffer H; simpl;
    [assumption | apply IH, pushNew_NoDup, H].
Qed.

Lemma slice_NoDup (A : Type) (start : Z) (l : list A) :
  NoDup l -> NoDup (slice start l).
Proof. apply NoDup_skipn_list. Qed.

Lemma truncate_NoDup (cap : Z) (buffer : list jsstring) :
  NoDup buffer -> NoDup (truncate cap buffer).
Proof.
  intros H; unfold truncate.
  destruct (cap <? _)%Z; [apply slice_NoDup|]; assumption.
Qed.

Lemma truncate_length (cap : Z) (buffer : list jsstring) :
  (0 < cap)%Z -> (Z.of_nat (length (truncate cap buffer)) <= cap)%Z.
Proof.
  intros Hcap; unfold truncate.
  destruct (Z.ltb_spec cap (Z.of_nat (length buffer))) as [Hlt|Hge];
    [|assumption].
  unfold slice.
  destruct (Z.ltb_spec (- cap) 0) as [_|Hneg]; [|lia].
  rewrite length_skipn; lia.
Qed.

Example truncate_keeps_latest :
  truncate 2 [lit "hi there"; lit "how are you"; lit "i am fine thanks"]
  = [lit "how are you"; lit "i am fine thanks"].
Proof. reflexivity. Qed.

(** What a batch does to the buffer and to the settings. *)
Lemma onMutations_buffer href now nowAtCall mutations st :
  messageBuffer (fst (onMutations href now nowAtCall mutations st)) =
  if truncationRuns href mutations st
  then truncate (maxMessages (settings st))
         (fold_left pushNew (extractNewMessages href mutations)
            (messageBuffer st))
  else messageBuffer st.
Proof.
  unfold onMutations, truncationRuns, analyzeConversation.
  destruct (isActive st), (analysisInProgress st) eqn:Hgate; simpl;
    try reflexivity.
  destruct (0 <? _)%nat; simpl; [|reflexivity].
  destruct (_ && _); simpl; [|reflexivity].
  rewrite Hgate; destruct (_ <? 2)%nat; reflexivity.
Qed.

Lemma onMutations_settings href now nowAtCall mutations st :
  settings (fst (onMutations href now nowAtCall mutations st)) = settings st.
Proof.
  unfold onMutations, analyzeConversation.
  destruct (negb (isActive st) || analysisInProgress st); [reflexivity|].
  destruct (0 <? _)%nat; [|reflexivity].
  destruct (_ && _); simpl; [|reflexivity].
  destruct (_ || _); reflexivity.
Qed.

Lemma completeAnalysis_buffer outcome st :
  messageBuffer (completeAnalysis outcome st) = messageBuffer st.
Proof.
  unfold completeAnalysis, displayAnalysis.
  destruct (sendToGemini outcome); simpl; [reflexivity|].
  destruct (_ && _); reflexivity.
Qed.

Lemma completeAnalysis_settings outcome st :
  settings (completeAnalysis outcome st) = settings st.
Proof.
  unfold completeAnalysis, displayAnalysis.
  destruct (sendToGemini outcome); simpl; [reflexivity|].
  destruct (_ && _); reflexivity.
Qed.

Lemma step_analyzer_mutations w href now nowAtCall mutations :
  observer (analyzer w) = true ->
  analyzer (step w (Mutations href now nowAtCall mutations)) =
  fst (onMutations href now nowAtCall mutations (analyzer w)).
Proof.
  intros Hobs; simpl; rewrite Hobs.
  destruct (onMutations _ _ _ _ _) as [st [request|]]; reflexivity.
Qed.

Lemma step_session_settings w ev :
  sessionEvent ev = true ->
  settings (analyzer (step w ev)) = settings (analyzer w).
Proof.
  destruct ev as [s| | |href now nowAtCall mutations|outcome];
    cbn [step analyzer sessionEvent]; try discriminate; intros _;
    try reflexivity.
  - destruct (observer (analyzer w)) eqn:Hobs; [|reflexivity].
    pose proof (onMutations_settings href now nowAtCall mutations (analyzer w))
      as H.
    destruct (onMutations _ _ _ _ _) as [st [request|]]; exact H.
  - destruct (pending w); [reflexivity | apply completeAnalysis_settings].
Qed.

Lemma step_NoDup w ev :
  NoDup (messageBuffer (analyzer w)) ->
  NoDup (messageBuffer (analyzer (step w ev))).
Proof.
  intros H.
  destruct ev as [s| | |href now nowAtCall mutations|outcome];
    cbn [step analyzer]; try assumption.
  - constructor.
  - destruct (observer (analyzer w)) eqn:Hobs; [|assumption].
    pose proof (onMutations_buffer href now nowAtCall mutations (analyzer w))
      as E.
    assert (NoDup (messageBuffer
                     (fst (onMutations href now nowAtCall mutations
                             (analyzer w))))) as H'.
    { rewrite E; destruct (truncationRuns _ _ _); [|assumption].
      apply truncate_NoDup, pushAll_NoDup, H. }
    destruct (onMutations _ _ _ _ _) as [st [request|]]; exact H'.
  - destruct (pending w); [assumption|].
    cbn [analyzer]; rewrite completeAnalysis_buffer; assumption.
Qed.

Lemma step_session_bounded w ev :
  sessionEvent ev = true ->
  (0 < maxMessages (settings (analyzer w)))%Z ->
  (bufferLength (analyzer w) <= maxMessages (settings (analyzer w)))%Z ->
  (bufferLength (analyzer (step w ev))
   <= maxMessages (settings (analyzer w)))%Z.
Proof.
  unfold bufferLength.
  destruct ev as [s| | |href now nowAtCall mutations|outcome];
    cbn [step analyzer sessionEvent]; try discriminate; intros _ Hcap H;
    try assumption.
  - destruct (observer (analyzer w)) eqn:Hobs; [|assumption].
    pose proof (onMutations_buffer href now nowAtCall mutations (analyzer w))
      as E.
    assert (Z.of_nat (length (messageBuffer
                     (fst (onMutations href now nowAtCall mutations
                             (analyzer w)))))
            <= maxMessages (settings (analyzer w)))%Z as H'.
    { rewrite E; destruct (truncationRuns _ _ _); [|assumption].
      apply truncate_length, Hcap. }
    destruct (onMutations _ _ _ _ _) as [st [request|]]; exact H'.
  - destruct (pending w); [assumption|].
    cbn [analyzer]; rewrite completeAnalysis_buffer; assumption.
Qed.

Lemma run_snoc events ev w : run (events ++ [ev]) w = step (run events w) ev.
Proof. unfold run; rewrite fold_left_app; reflexivity. Qed.

Lemma run_NoDup events w :
  NoDup (messageBuffer (analyzer w)) ->
  NoDup (messageBuffer (analyzer (run events w))).
Proof.
  revert w; induction events as [|ev events IH]; intros w H; simpl;
    [assumption | apply IH, step_NoDup, H].
Qed.

Lemma run_session_settings events w :
  forallb sessionEvent events = true ->
  settings (analyzer (run events w)) = settings (analyzer w).
Proof.
  revert w; induction events as [|ev events IH]; intros w H; simpl in *;
    [reflexivity|].
  apply andb_true_iff in H as [Hev Hrest].
  rewrite (IH _ Hrest); apply step_session_settings, Hev.
Qed.

Lemma run_session_bounded events w :
  forallb sessionEvent events = true ->
  (0 < maxMessages (settings (analyzer w)))%Z ->
  (bufferLength (analyzer w) <= maxMessages (settings (analyzer w)))%Z ->
  (bufferLength (analyzer (run events w))
   <= maxMessages (settings (analyzer w)))%Z.
Proof.
  revert w; induction events as [|ev events IH]; intros w H Hcap Hlen;
    simpl in *; [assumption|].
  apply andb_true_iff in H as [Hev Hrest].
  rewrite <- (step_session_settings w ev Hev).
  apply IH; [assumption | |]; rewrite (step_session_settings w ev Hev);
    [assumption | apply step_session_bounded; assumption].
Qed.

(** ** The trigger *)

Lemma length_pos_nonempty (A : Type) (l : list A) :
  (0 <? length l)%nat = true <-> l <> [].
Proof.
  destruct l; simpl; split; try congruence; try discriminate; reflexivity.
Qed.

(** When the callback sends a call, and what it leaves behind. *)
Lemma onMutations_fires href now nowAtCall mutations st :
  fires (onMutations href now nowAtCall mutations st) =
  truncationRuns href mutations st
  && (delay (settings st) <? now - lastAnalysisTime st)%Z
  && (2 <=? length (messageBuffer
                      (fst (onMutations href now nowAtCall mutations st))))%nat.
Proof.
  unfold onMutations, truncationRuns, analyzeConversation, fires.
  destruct (isActive st), (analysisInProgress st) eqn:Hgate; simpl;
    try reflexivity.
  destruct (0 <? _)%nat; simpl; [|reflexivity].
  destruct (delay _ <? _)%Z; simpl; [|reflexivity].
  rewrite Hgate.
  destruct (length _) as [|[|n]] eqn:Hlen; simpl; rewrite ?Hlen; reflexivity.
Qed.

Lemma onMutations_fired_state href now nowAtCall mutations st :
  fires (onMutations href now nowAtCall mutations st) = true ->
  lastAnalysisTime (fst (onMutations href now nowAtCall mutations st))
  = nowAtCall /\
  analysisInProgress (fst (onMutations href now nowAtCall mutations st))
  = true.
Proof.
  unfold onMutations, analyzeConversation, fires.
  destruct (negb (isActive st) || analysisInProgress st);
    [discriminate|].
  destruct (0 <? _)%nat; [|discriminate].
  destruct (_ && _); [|discriminate].
  destruct (_ || _); [discriminate|].
  simpl; auto.
Qed.

Lemma onMutations_in_flight href now nowAtCall mutations st :
  analysisInProgress st = true ->
  onMutations href now nowAtCall mutations st = (st, None).
Proof.
  intros H; unfold onMutations; rewrite H, orb_true_r; reflexivity.
Qed.

Lemma completeAnalysis_lastAnalysisTime outcome st :
  lastAnalysisTime (completeAnalysis outcome st) = lastAnalysisTime st.
Proof.
  unfold completeAnalysis, displayAnalysis.
  destruct (sendToGemini outcome); simpl; [reflexivity|].
  destruct (_ && _); reflexivity.
Qed.

(** C1.  Through any sequence of batches, settled calls and clicks of a
    running session whose capacity [messageCount || 10] is positive, the
    buffer never holds two equal strings.  Its length stays within the
    capacity once it is within it, and it is within it after every batch
    on which the truncation runs, whatever its length was before. *)
Theorem buffer_bounded_without_duplicates :
  forall (events : list Event) (w : World),
    forallb sessionEvent events = true ->
    (0 < maxMessages (settings (analyzer w)))%Z ->
    NoDup (messageBuffer (analyzer w)) ->
    let w' := run events w in
    NoDup (messageBuffer (analyzer w')) /\
    ((bufferLength (analyzer w) <= maxMessages (settings (analyzer w)))%Z ->
     (bufferLength (analyzer w') <= maxMessages (settings (analyzer w')))%Z) /\
    (forall href now nowAtCall mutations,
        observer (analyzer w') = true ->
        truncationRuns href mutations (analyzer w') = true ->
        let w'' := step w' (Mutations href now nowAtCall mutations) in
        NoDup (messageBuffer (analyzer w'')) /\
        (bufferLength (analyzer w'')
         <= maxMessages (settings (analyzer w'')))%Z).
Proof.
  intros events w Hev Hcap Hnd w'.
  assert (settings (analyzer w') = settings (analyzer w)) as Hset
      by (apply run_session_settings, Hev).
  assert (NoDup (messageBuffer (analyzer w'))) as Hnd'
      by (apply run_NoDup, Hnd).
  split; [exact Hnd'|]; split.
  - intros Hlen; rewrite Hset; apply run_session_bounded; assumption.
  - intros href now nowAtCall mutations Hobs Hruns w''.
    split; [apply step_NoDup, Hnd'|].
    unfold w'', bufferLength.
    rewrite (step_analyzer_mutations _ _ _ _ _ Hobs).
    rewrite onMutations_settings, onMutations_buffer, Hruns, Hset.
    apply truncate_length, Hcap.
Qed.

(** C1 at work: capacity 2, three messages, then a fourth one. *)
Lemma buffer_bounded_without_duplicates_witness :
  NoDup (messageBuffer (analyzer (run sampleSession startedWorld))) /\
  messageBuffer (analyzer (run sampleSession startedWorld))
  = [lit "how are you"; lit "i am fine thanks"] /\
  (bufferLength (analyzer (run sampleSession startedWorld)) <= 2)%Z /\
  (bufferLength
     (analyzer (step (run sampleSession startedWorld)
                  (Mutations somePage 22000 22001
                     (batchOf [lit "see you soon"]))))
   <= 2)%Z.
Proof.
  assert (NoDup (messageBuffer (analyzer startedWorld))) as Hnd
      by (vm_compute; constructor).
  assert (0 < maxMessages (settings (analyzer startedWorld)))%Z as Hcap
      by (vm_compute; reflexivity).
  pose proof (buffer_bounded_without_duplicates sampleSession startedWorld
                eq_refl Hcap Hnd) as H.
  cbv zeta in H; destruct H as (H1 & H2 & H3).
  split; [exact H1|]; split; [vm_compute; reflexivity|]; split.
  - apply H2; vm_compute; discriminate.
  - apply (H3 somePage 22000%Z 22001%Z (batchOf [lit "see you soon"]));
      vm_compute; reflexivity.
Defined.

(** C2.  In an active session a batch fires an analysis cycle exactly
    when its added nodes bring at least one new message, the buffer then
    holds at least two messages, no call is in flight and the time since
    [lastAnalysisTime] is strictly more than the delay.  On fire the
    timestamp is the clock read at the trigger and the gate is closed;
    the settling of the call does not move the timestamp. *)
Theorem analysis_fires_iff :
  forall href now nowAtCall mutations st,
    isActive st = true ->
    (fires (onMutations href now nowAtCall mutations st) = true <->
     extractNewMessages href mutations <> [] /\
     (2 <= length (messageBuffer
                     (fst (onMutations href now nowAtCall mutations st))))%nat
     /\
     analysisInProgress st = false /\
     (now - lastAnalysisTime st > delay (settings st))%Z) /\
    (fires (onMutations href now nowAtCall mutations st) = true ->
     lastAnalysisTime (fst (onMutations href now nowAtCall mutations st))
     = nowAtCall /\
     analysisInProgress (fst (onMutations href now nowAtCall mutations st))
     = true /\
     forall outcome,
       lastAnalysisTime
         (completeAnalysis outcome
            (fst (onMutations href now nowAtCall mutations st)))
       = nowAtCall).
Proof.
  intros href now nowAtCall mutations st Hactive; split.
  - rewrite onMutations_fires; unfold truncationRuns.
    rewrite Hactive, !andb_true_iff, negb_true_iff, length_pos_nonempty,
      Z.ltb_lt, Nat.leb_le.
    simpl; intuition lia.
  - intros Hfires.
    destruct (onMutations_fired_state _ _ _ _ _ Hfires) as [Htime Hgate].
    repeat split; try assumption.
    intros outcome; rewrite completeAnalysis_lastAnalysisTime; assumption.
Qed.

(** C2 at work: two messages arrive 20 seconds after the page epoch with
    a 10 second delay, and the call is sent. *)
Lemma analysis_fires_iff_witness :
  fires (onMutations somePage 20000 20001
           (batchOf [lit "hi there"; lit "how are you"])
           (startAnalysis (settingsOf 10 10) newAnalyzer)) = true /\
  lastAnalysisTime
    (fst (onMutations somePage 20000 20001
            (batchOf [lit "hi there"; lit "how are you"])
            (startAnalysis (settingsOf 10 10) newAnalyzer))) = 20001%Z.
Proof.
  pose proof (analysis_fires_iff somePage 20000 20001
                (batchOf [lit "hi there"; lit "how are you"])
                (startAnalysis (settingsOf 10 10) newAnalyzer) eq_refl)
    as [Hiff Hstate].
  assert (fires (onMutations somePage 20000 20001
                   (batchOf [lit "hi there"; lit "how are you"])
                   (startAnalysis (settingsOf 10 10) newAnalyzer)) = true)
    as Hfires.
  { apply Hiff; split; [|split; [|split]].
    - vm_compute; discriminate.
    - vm_compute; lia.
    - reflexivity.
    - vm_compute; reflexivity. }
  split; [exact Hfires | exact (proj1 (Hstate Hfires))].
Defined.

(** The new messages of a batch are the texts its added nodes yield;
    the trigger does not ask that one of them be pushed.  Once the call
    of the busy analyzer has settled and the delay has passed, a batch
    that repeats a buffered message leaves the buffer as it is and
    fires. *)
Example repeated_message_fires :
  messageBuffer (completeAnalysis (replied cleanReply) busyAnalyzer)
  = [lit "hi there"; lit "how are you"] /\
  messageBuffer
    (fst (onMutations somePage 40000 40001 (batchOf [lit "hi there"])
            (completeAnalysis (replied cleanReply) busyAnalyzer)))
  = [lit "hi there"; lit "how are you"] /\
  fires (onMutations somePage 40000 40001 (batchOf [lit "hi there"])
           (completeAnalysis (replied cleanReply) busyAnalyzer)) = true.
Proof. vm_compute; repeat split. Qed.

Example formatConversation_alternates :
  formatConversation busyAnalyzer
  = join [LF] [lit "Person A: hi there"; lit "Person B: how are you"].
Proof. vm_compute; reflexivity. Qed.

(** ** One call at a time *)

Lemma onMutations_gate href now nowAtCall mutations st :
  analysisInProgress (fst (onMutations href now nowAtCall mutations st)) =
  analysisInProgress st || fires (onMutations href now nowAtCall mutations st).
Proof.
  unfold onMutations, analyzeConversation, fires.
  destruct (isActive st), (analysisInProgress st) eqn:Hgate; simpl;
    rewrite ?Hgate; try reflexivity.
  destruct (0 <? _)%nat; simpl; rewrite ?Hgate; [|reflexivity].
  destruct (_ && _); simpl; rewrite ?Hgate; [|reflexivity].
  destruct (_ <? 2)%nat; simpl; rewrite ?Hgate; reflexivity.
Qed.

Lemma step_gateMatchesPending w ev :
  gateMatchesPending w -> gateMatchesPending (step w ev).
Proof.
  unfold gateMatchesPending; intros H.
  destruct ev as [s| | |href now nowAtCall mutations|outcome];
    cbn [step]; try exact H.
  - destruct (observer (analyzer w)); [|exact H].
    pose proof (onMutations_gate href now nowAtCall mutations (analyzer w))
      as Hgate.
    pose proof (onMutations_in_flight href now nowAtCall mutations (analyzer w))
      as Hbusy.
    unfold fires in Hgate.
    destruct (onMutations _ _ _ _ _) as [st [request|]];
      cbn [analyzer pending fst snd] in *; rewrite Hgate.
    + destruct (analysisInProgress (analyzer w));
        [specialize (Hbusy eq_refl); discriminate|].
      rewrite length_app, H; reflexivity.
    + rewrite orb_false_r; exact H.
  - destruct (pending w) as [|request rest] eqn:E; [rewrite E; exact H|].
    cbn [analyzer pending]; unfold completeAnalysis; cbn [analysisInProgress
      setAnalysisInProgress].
    destruct (analysisInProgress (analyzer w)); simpl in H; [|discriminate].
    destruct rest; [reflexivity | discriminate].
Qed.

(** From the loaded page on, whatever happens, at most one remote call is
    pending, and one is pending exactly while the gate is closed. *)
Lemma one_call_at_a_time events :
  gateMatchesPending (run events newWorld).
Proof.
  unfold run.
  assert (gateMatchesPending newWorld) as H by reflexivity.
  revert H; generalize newWorld.
  induction events as [|ev events IH]; intros w H; simpl;
    [assumption | apply IH, step_gateMatchesPending, H].
Qed.

(** ** Stop while a call is in flight *)

(** C3.  The code at the failing input: after the stop the session is
    inactive, the indicator is hidden and the call is still pending; when
    the call then succeeds, its parsed result replaces the content of the
    indicator and the indicator is shown again. *)
Theorem late_reply_rendered_after_stop :
  isActive (analyzer (run stoppedInFlight newWorld)) = false /\
  hidden (indicator (analyzer (run stoppedInFlight newWorld))) = true /\
  content (indicator (analyzer (run stoppedInFlight newWorld)))
  = LoadingCard 2 /\
  length (pending (run stoppedInFlight newWorld)) = 1%nat /\
  isActive (analyzer (run (stoppedInFlight ++ [CallSettled (replied sampleReply)])
                        newWorld)) = false /\
  hidden (indicator (analyzer
    (run (stoppedInFlight ++ [CallSettled (replied sampleReply)]) newWorld)))
  = false /\
  content (indicator (analyzer
    (run (stoppedInFlight ++ [CallSettled (replied sampleReply)]) newWorld)))
  = AnalysisCard (renderAnalysis 0 (parseAnalysis sampleReply)).
Proof. vm_compute; repeat split. Qed.

(** ** Batches while a call is in flight *)

(** C4, as stated, fails: with a call in flight a batch bringing a new
    qualifying message leaves the buffer as it was, where appending and
    truncating would have added the message. *)
Lemma batch_in_flight_not_appended :
  isActive busyAnalyzer = true /\
  analysisInProgress busyAnalyzer = true /\
  extractNewMessages somePage (batchOf [lit "i am fine thanks"])
  = [lit "i am fine thanks"] /\
  truncate (maxMessages (settings busyAnalyzer))
    (fold_left pushNew
       (extractNewMessages somePage (batchOf [lit "i am fine thanks"]))
       (messageBuffer busyAnalyzer))
  = [lit "hi there"; lit "how are you"; lit "i am fine thanks"] /\
  messageBuffer
    (fst (onMutations somePage 40000 40001
            (batchOf [lit "i am fine thanks"]) busyAnalyzer))
  = [lit "hi there"; lit "how are you"] /\
  messageBuffer
    (fst (onMutations somePage 40000 40001
            (batchOf [lit "i am fine thanks"]) busyAnalyzer))
  <> truncate (maxMessages (settings busyAnalyzer))
       (fold_left pushNew
          (extractNewMessages somePage (batchOf [lit "i am fine thanks"]))
          (messageBuffer busyAnalyzer)).
Proof. vm_compute; repeat split; discriminate. Qed.

(** C4, amended.  A batch that arrives while a call is in flight is
    dropped whole at the gate of the callback: the analyzer, its buffer
    included, is left as it was and no call is sent. *)
Theorem batch_in_flight_dropped :
  forall href now nowAtCall mutations st,
    analysisInProgress st = true ->
    onMutations href now nowAtCall mutations st = (st, None).
Proof. intros; apply onMutations_in_flight; assumption. Qed.

Lemma batch_in_flight_dropped_witness :
  onMutations somePage 40000 40001 (batchOf [lit "i am fine thanks"])
    busyAnalyzer
  = (busyAnalyzer, None).
Proof.
  apply (batch_in_flight_dropped somePage 40000 40001
           (batchOf [lit "i am fine thanks"]) busyAnalyzer).
  vm_compute; reflexivity.
Defined.

(** ** Failure of the remote call *)

Lemma sendToGemini_error outcome :
  RemoteCallError outcome -> exists message, sendToGemini outcome = inl message.
Proof.
  intros [message|status body|status message|status message text|status|status];
    simpl; eauto.
Qed.

Lemma showError_state message st :
  indicator (showError message st)
  = {| content := ErrorCard message; hidden := false |} /\
  isActive (showError message st) = isActive st /\
  observer (showError message st) = observer st /\
  messageBuffer (showError message st) = messageBuffer st.
Proof. repeat split. Qed.

(** C7.  When the remote call fails, the cycle ends with the error shown
    in the visible indicator, the session as active as it was, the
    observer still connected, and the gate released; a later batch that
    meets the trigger condition fires again. *)
Theorem remote_failure_releases_gate :
  forall outcome st,
    RemoteCallError outcome ->
    exists message,
      sendToGemini outcome = inl message /\
      content (indicator (completeAnalysis outcome st))
      = ErrorCard (lit "Analysis error: " ++ message) /\
      hidden (indicator (completeAnalysis outcome st)) = false /\
      isActive (completeAnalysis outcome st) = isActive st /\
      observer (completeAnalysis outcome st) = observer st /\
      analysisInProgress (completeAnalysis outcome st) = false /\
      forall href now nowAtCall mutations,
        isActive st = true ->
        extractNewMessages href mutations <> [] ->
        (2 <= length (messageBuffer
                        (fst (onMutations href now nowAtCall mutations
                                (completeAnalysis outcome st)))))%nat ->
        (now - lastAnalysisTime st > delay (settings st))%Z ->
        fires (onMutations href now nowAtCall mutations
                 (completeAnalysis outcome st)) = true.
Proof.
  intros outcome st Hfail.
  destruct (sendToGemini_error Hfail) as [message E].
  exists message; split; [assumption|].
  assert (completeAnalysis outcome st
          = setAnalysisInProgress false
              (showError (lit "Analysis error: " ++ message) st)) as Hst
      by (unfold completeAnalysis; rewrite E; reflexivity).
  repeat (split; [rewrite Hst; reflexivity|]).
  intros href now nowAtCall mutations Hactive Hnew Hlen Hlate.
  rewrite onMutations_fires; unfold truncationRuns.
  rewrite !andb_true_iff, negb_true_iff, length_pos_nonempty, Z.ltb_lt,
    Nat.leb_le.
  rewrite Hst in *; simpl in *; intuition lia.
Qed.

(** C7 at work: the call of the busy analyzer is answered with status
    503; the error is shown, the gate is released, and twenty seconds
    later a new message fires the next cycle. *)
Lemma remote_failure_releases_gate_witness :
  content (indicator (completeAnalysis
                        (FetchResponse false 503 (BodyUnreadable []))
                        busyAnalyzer))
  = ErrorCard (lit "Analysis error: API error: 503") /\
  analysisInProgress (completeAnalysis
                        (FetchResponse false 503 (BodyUnreadable []))
                        busyAnalyzer) = false /\
  fires (onMutations somePage 40000 40001 (batchOf [lit "i am fine thanks"])
           (completeAnalysis (FetchResponse false 503 (BodyUnreadable []))
              busyAnalyzer)) = true.
Proof.
  destruct (remote_failure_releases_gate busyAnalyzer
              (NonSuccessStatus 503 (BodyUnreadable [])))
    as (message & E & Hcontent & _ & _ & _ & Hgate & Hfires).
  assert (message = lit "API error: 503") as ->
      by (injection E as E'; rewrite <- E'; reflexivity).
  split; [exact Hcontent|]; split; [exact Hgate|].
  apply Hfires.
  - vm_compute; reflexivity.
  - vm_compute; discriminate.
  - vm_compute; lia.
  - vm_compute; reflexivity.
Defined.

(** ** The healthy streak *)

Lemma displayAnalysis_counter analysis st :
  consecutiveEmptyAnalyses (displayAnalysis analysis st) =
  if cleanResult (parseAnalysis analysis)
  then (consecutiveEmptyAnalyses st + 1)%N else 0%N.
Proof.
  unfold displayAnalysis, cleanResult.
  destruct (_ && _); reflexivity.
Qed.

Lemma displayAnalysis_content analysis st :
  content (indicator (displayAnalysis analysis st)) =
  AnalysisCard
    (renderAnalysis (consecutiveEmptyAnalyses (displayAnalysis analysis st))
       (parseAnalysis analysis)).
Proof.
  unfold displayAnalysis.
  destruct (_ && _); reflexivity.
Qed.

(** A reply that comes after the stop is rendered in every stopped
    analyzer, whatever its text: the session stays inactive and the
    indicator is shown with the parsed result. *)
Lemma late_reply_shown_in_any_stopped_session st text :
  truthy text = true ->
  isActive (completeAnalysis (replied text) (stopAnalysis st)) = false /\
  hidden (indicator (completeAnalysis (replied text) (stopAnalysis st)))
  = false /\
  content (indicator (completeAnalysis (replied text) (stopAnalysis st)))
  = AnalysisCard
      (renderAnalysis (if cleanResult (parseAnalysis text) then 1%N else 0%N)
         (parseAnalysis text)).
Proof.
  intros Htext.
  assert (completeAnalysis (replied text) (stopAnalysis st)
          = setAnalysisInProgress false
              (displayAnalysis text (stopAnalysis st))) as ->
      by (unfold completeAnalysis, replied, sendToGemini;
          rewrite Htext; reflexivity).
  cbn [isActive indicator setAnalysisInProgress].
  rewrite displayAnalysis_content, displayAnalysis_counter.
  unfold displayAnalysis.
  destruct (cleanResult (parseAnalysis text)) eqn:E; unfold cleanResult in E;
    rewrite E; repeat split.
Qed.

(** C9.  From any state of the analyzer, two cycles in a row that both
    parse to level None and toxic person None leave the healthy
    conversation card in the indicator after the second one; a cycle that
    parses to another level or another toxic person sets the streak
    counter to 0. *)
Theorem healthy_streak :
  forall st,
    (forall first second,
        cleanResult (parseAnalysis first) = true ->
        cleanResult (parseAnalysis second) = true ->
        content (indicator (displayAnalysis second (displayAnalysis first st)))
        = AnalysisCard PositiveFeedback) /\
    (forall analysis,
        cleanResult (parseAnalysis analysis) = false ->
        consecutiveEmptyAnalyses (displayAnalysis analysis st) = 0%N).
Proof.
  intros st; split.
  - intros first second Hfirst Hsecond.
    rewrite displayAnalysis_content, !displayAnalysis_counter, Hfirst, Hsecond.
    unfold renderAnalysis.
    apply andb_true_iff in Hsecond as [Hlevel _]; rewrite Hlevel.
    destruct (N.leb_spec 2 (consecutiveEmptyAnalyses st + 1 + 1)) as [_|H];
      [reflexivity | lia].
  - intros analysis H; rewrite displayAnalysis_counter, H; reflexivity.
Qed.

(** C9 at work, after a cycle that found toxicity. *)
Lemma healthy_streak_witness :
  content (indicator
    (displayAnalysis cleanReply
       (displayAnalysis cleanReply (displayAnalysis sampleReply newAnalyzer))))
  = AnalysisCard PositiveFeedback /\
  consecutiveEmptyAnalyses (displayAnalysis sampleReply newAnalyzer) = 0%N.
Proof.
  destruct (healthy_streak (displayAnalysis sampleReply newAnalyzer))
    as [Hstreak _].
  destruct (healthy_streak newAnalyzer) as [_ Hreset].
  split.
  - apply Hstreak; vm_compute; reflexivity.
  - apply Hreset; vm_compute; reflexivity.
Defined.

(** ** Stop and the cooldown *)

(** C10.  Stopping empties the buffer and resets the streak counter but
    keeps [lastAnalysisTime]; after a new start, a batch that comes
    within the delay of the new settings, counted from the last trigger
    of the earlier session, does not fire. *)
Theorem stop_keeps_cooldown :
  forall st,
    messageBuffer (stopAnalysis st) = [] /\
    consecutiveEmptyAnalyses (stopAnalysis st) = 0%N /\
    lastAnalysisTime (stopAnalysis st) = lastAnalysisTime st /\
    (forall s, lastAnalysisTime (startAnalysis s (stopAnalysis st))
               = lastAnalysisTime st) /\
    (forall s href now nowAtCall mutations,
        (now - lastAnalysisTime st <= delay s)%Z ->
        fires (onMutations href now nowAtCall mutations
                 (startAnalysis s (stopAnalysis st))) = false).
Proof.
  intros st; do 3 (split; [reflexivity|]); split; [intros s; reflexivity|].
  intros s href now nowAtCall mutations Hsoon.
  rewrite onMutations_fires.
  replace (delay _ <? _)%Z with false;
    [rewrite andb_false_r; reflexivity|].
  symmetry; apply Z.ltb_ge; simpl; assumption.
Qed.

(** C10 at work: the earlier session triggered at 20001; the new session
    gets two messages at 25000, less than 10 seconds later, and stays
    silent, where a fresh analyzer would have fired. *)
Lemma stop_keeps_cooldown_witness :
  lastAnalysisTime stoppedAnalyzer = 20001%Z /\
  fires (onMutations somePage 25000 25001
           (batchOf [lit "hi there"; lit "how are you"])
           (startAnalysis (settingsOf 10 10) (stopAnalysis stoppedAnalyzer)))
  = false /\
  fires (onMutations somePage 25000 25001
           (batchOf [lit "hi there"; lit "how are you"])
           (startAnalysis (settingsOf 10 10) newAnalyzer))
  = true.
Proof.
  split; [vm_compute; reflexivity|]; split; [|vm_compute; reflexivity].
  destruct (stop_keeps_cooldown stoppedAnalyzer) as (_ & _ & _ & _ & Hquiet).
  apply Hquiet; vm_compute; discriminate.
Defined.

(** ** The parser *)

Section ParseInvariant.

Variable analysis : jsstring.

Lemma truthy_nonempty (v : jsstring) : truthy v = true -> v <> [].
Proof. destruct v; [discriminate | discriminate]. Qed.

Lemma parseLine_parsedFrom r line :
  In line (split LF analysis) ->
  parsedFrom analysis r -> parsedFrom analysis (parseLine r line).
Proof.
  intros Hline (Hl & Hp & Hb & Hpr & Hs).
  unfold parseLine.
  destruct (startsWith (lit "Level:") (trim line)) eqn:E1.
  { repeat split; try assumption; cbn [level].
    destruct (arrayIncludes _ levels) eqn:E; [right | left; reflexivity].
    split; [apply arrayIncludes_In, E|].
    exists line; repeat split; assumption. }
  destruct (startsWith (lit "ToxicPerson:") (trim line)) eqn:E2.
  { repeat split; try assumption; cbn [toxicPerson].
    destruct (arrayIncludes _ persons) eqn:E; [right | left; reflexivity].
    split; [apply arrayIncludes_In, E|].
    exists line; repeat split; assumption. }
  destruct (startsWith (lit "Behaviors:") (trim line)) eqn:E3.
  { destruct (truthy _ && negb _) eqn:E; [|repeat split; assumption].
    apply andb_true_iff in E as [Ht Hi]; apply negb_true_iff in Hi.
    repeat split; try assumption; cbn [behaviors].
    right; eexists; repeat split;
      [exists line; repeat split; eassumption
      | apply truthy_nonempty, Ht | exact Hi]. }
  destruct (startsWith (lit "Problem:") (trim line)) eqn:E4.
  { destruct (truthy _ && negb _) eqn:E; [|repeat split; assumption].
    apply andb_true_iff in E as [Ht Hi]; apply negb_true_iff in Hi.
    repeat split; try assumption; cbn [problem].
    right; repeat split;
      [exists line; repeat split; eassumption
      | apply truthy_nonempty, Ht | exact Hi]. }
  destruct (startsWith (lit "Suggestion:") (trim line)) eqn:E5.
  { destruct (truthy _ && negb _) eqn:E; [|repeat split; assumption].
    apply andb_true_iff in E as [Ht Hi]; apply negb_true_iff in Hi.
    repeat split; try assumption; cbn [suggestion].
    right; repeat split;
      [exists line; repeat split; eassumption
      | apply truthy_nonempty, Ht | exact Hi]. }
  repeat split; assumption.
Qed.

Lemma parseLines_parsedFrom lines r :
  incl lines (split LF analysis) -> parsedFrom analysis r ->
  parsedFrom analysis (fold_left parseLine lines r).
Proof.
  revert r; induction lines as [|line lines IH]; intros r Hincl Hr; simpl;
    [assumption|].
  apply IH; [intros x Hx; apply Hincl; right; assumption|].
  apply parseLine_parsedFrom; [apply Hincl; left; reflexivity | assumption].
Qed.

Lemma parseAnalysis_parsedFrom :
  parsedFrom analysis (parseAnalysis analysis).
Proof.
  apply parseLines_parsedFrom; [apply incl_refl|].
  repeat split; left; reflexivity.
Qed.

End ParseInvariant.

(** C5.  On every text the parser returns a record whose level and toxic
    person are recognized values, the default None or the value of a
    labelled line, and whose behaviors, problem and suggestion are the
    defaults or what a labelled line carries, not empty and free of the
    sentinel phrase.  The empty text, a text without labels and a text
    whose labelled values are not recognized all give the default
    record. *)
Theorem parseAnalysis_total_with_defaults :
  (forall analysis, parsedFrom analysis (parseAnalysis analysis)) /\
  (forall analysis,
      In (level (parseAnalysis analysis)) levels /\
      In (toxicPerson (parseAnalysis analysis)) persons) /\
  parseAnalysis [] = defaultResult /\
  parseAnalysis (join [LF] [lit "hello"; lit ""; lit "how are you"])
  = defaultResult /\
  parseAnalysis (join [LF] [lit "Level: Extreme"; lit "ToxicPerson: Person C"])
  = defaultResult.
Proof.
  split; [exact parseAnalysis_parsedFrom|].
  split; [|vm_compute; repeat split].
  intros analysis.
  destruct (parseAnalysis_parsedFrom analysis) as ([->|[H _]] & [->|[H' _]] & _);
    split; try assumption; simpl; auto.
Qed.

(** A behaviors line made of commas only overrides the default with a
    list without items. *)
Example behaviors_of_commas :
  behaviors (parseAnalysis (lit "Behaviors: , ,")) = [].
Proof. reflexivity. Qed.

(** ** Trimming, splitting and joining *)

Lemma trimStart_length (s : jsstring) :
  (length (trimStart s) <= length s)%nat.
Proof.
  induction s as [|c t IH]; simpl; [lia|].
  destruct (isWhiteSpace c); simpl; lia.
Qed.

Lemma trimStart_fixed (s : jsstring) :
  length (trimStart s) = length s -> trimStart s = s.
Proof.
  destruct s as [|c t]; simpl; [reflexivity|].
  destruct (isWhiteSpace c); [|reflexivity].
  pose proof (trimStart_length t); lia.
Qed.

Lemma trimEnd_length (s : jsstring) :
  (length (trimEnd s) <= length s)%nat.
Proof.
  induction s as [|c t IH]; simpl; [lia|].
  destruct (trimEnd t); [destruct (isWhiteSpace c)|]; simpl in *; lia.
Qed.

Lemma trim_fixed (v : jsstring) :
  trim v = v -> trimStart v = v /\ trimEnd v = v.
Proof.
  unfold trim; intros H.
  assert (trimStart v = v) as Hs.
  { apply trimStart_fixed.
    pose proof (trimStart_length v).
    pose proof (trimEnd_length (trimStart v)).
    rewrite H in *; lia. }
  split; [assumption | rewrite Hs in H; assumption].
Qed.

Lemma trimStart_head (v : jsstring) :
  v <> [] -> trimStart v = v ->
  exists c t, v = c :: t /\ isWhiteSpace c = false.
Proof.
  destruct v as [|c t]; [congruence|]; intros _ H; simpl in H.
  exists c, t; split; [reflexivity|].
  destruct (isWhiteSpace c); [|reflexivity].
  pose proof (trimStart_length t) as Hlen; rewrite H in Hlen; simpl in Hlen; lia.
Qed.

Lemma trimStart_app (v rest : jsstring) :
  v <> [] -> trimStart v = v -> trimStart (v ++ rest) = v ++ rest.
Proof.
  intros Hne H; destruct (trimStart_head Hne H) as (c & t & -> & Hc).
  simpl; rewrite Hc; reflexivity.
Qed.

Lemma trimEnd_app (p v : jsstring) :
  v <> [] -> trimEnd v = v -> trimEnd (p ++ v) = p ++ v.
Proof.
  intros Hne H; induction p as [|c p IH]; simpl; [assumption|].
  rewrite IH; destruct (p ++ v) eqn:E; [|reflexivity].
  apply app_eq_nil in E as [_ E]; congruence.
Qed.

Lemma trim_after_space (v : jsstring) : trim (SPACE :: v) = trim v.
Proof. reflexivity. Qed.

Lemma startsWith_app (p s : jsstring) : startsWith p (p ++ s) = true.
Proof.
  induction p as [|x p IH]; simpl; [reflexivity|].
  rewrite N.eqb_refl; assumption.
Qed.

Lemma skipn_prefix (A : Type) (p s : list A) : skipn (length p) (p ++ s) = s.
Proof. induction p; simpl; auto. Qed.

Lemma replace_prefix (p r s : jsstring) : replace p r (p ++ s) = r ++ s.
Proof.
  assert (forall t, startsWith p t = true ->
                    replace p r t = r ++ skipn (length p) t) as H
      by (intros [|c t] E; simpl; rewrite E; reflexivity).
  rewrite H by apply startsWith_app.
  rewrite skipn_prefix; reflexivity.
Qed.

Lemma split_cons_other (sep c : char) (t : jsstring) :
  N.eqb c sep = false ->
  split sep (c :: t) =
  match split sep t with
  | [] => [[c]]
  | piece :: rest => (c :: piece) :: rest
  end.
Proof. intros E; simpl; rewrite E; reflexivity. Qed.

Lemma split_none (sep : char) (a : jsstring) :
  ~ In sep a -> split sep a = [a].
Proof.
  induction a as [|c a IH]; intros H; [reflexivity|].
  rewrite split_cons_other.
  - rewrite IH; [reflexivity | intros Hin; apply H; right; assumption].
  - apply N.eqb_neq; intros ->; apply H; left; reflexivity.
Qed.

Lemma split_app (sep : char) (a b : jsstring) :
  ~ In sep a -> split sep (a ++ sep :: b) = a :: split sep b.
Proof.
  induction a as [|c a IH]; intros H.
  - simpl; rewrite N.eqb_refl; reflexivity.
  - rewrite <- app_comm_cons, split_cons_other.
    + rewrite IH; [reflexivity | intros Hin; apply H; right; assumption].
    + apply N.eqb_neq; intros ->; apply H; left; reflexivity.
Qed.

(** A label, a space and a clean value: the line is its own trimmed form
    and carries the value. *)
Lemma labelled_line (c : char) (label v : jsstring) :
  isWhiteSpace c = false -> v <> [] -> trim v = v ->
  trim ((c :: label) ++ SPACE :: v) = (c :: label) ++ SPACE :: v /\
  labelValue (c :: label) ((c :: label) ++ SPACE :: v) = v.
Proof.
  intros Hc Hne Hv; destruct (trim_fixed Hv) as [Hs He]; split.
  - change ((c :: label) ++ SPACE :: v) with ((c :: label) ++ [SPACE] ++ v).
    rewrite app_assoc; unfold trim.
    replace (trimStart (((c :: label) ++ [SPACE]) ++ v))
      with (((c :: label) ++ [SPACE]) ++ v)
      by (simpl; rewrite Hc; reflexivity).
    apply trimEnd_app; assumption.
  - unfold labelValue; rewrite replace_prefix; simpl app.
    rewrite trim_after_space; assumption.
Qed.

Lemma labelled_line_of (label v : jsstring) :
  label <> [] -> trimStart label = label -> v <> [] -> trim v = v ->
  trim (label ++ SPACE :: v) = label ++ SPACE :: v /\
  labelValue label (label ++ SPACE :: v) = v.
Proof.
  intros Hl Hs; destruct (trimStart_head Hl Hs) as (c & t & -> & Hc).
  apply labelled_line; assumption.
Qed.

Lemma truthy_of_nonempty (v : jsstring) : v <> [] -> truthy v = true.
Proof. destruct v; [congruence | reflexivity]. Qed.

(** Which branch of the [else if] chain a labelled line takes. *)
Ltac pick_branch :=
  repeat match goal with
    | |- context [startsWith (lit ?a) (lit ?b ++ ?rest)] =>
        first [ change (startsWith (lit a) (lit b ++ rest)) with true
              | change (startsWith (lit a) (lit b ++ rest)) with false ]
    end;
  cbv beta iota zeta.

Ltac open_line label v Hne Hv :=
  let Ht := fresh "Ht" in
  let Hval := fresh "Hval" in
  destruct (@labelled_line_of (lit label) v
              ltac:(discriminate) eq_refl Hne Hv) as [Ht Hval];
  unfold parseLine; rewrite Ht; pick_branch; rewrite Hval.

Lemma recognized_clean (known : list jsstring) (v : jsstring) :
  known = levels \/ known = persons -> In v known -> cleanValue v.
Proof.
  intros [-> | ->] H; simpl in H;
    repeat (destruct H as [<- | H]; [repeat split; try discriminate;
                                     simpl; intuition discriminate|]);
    contradiction.
Qed.

Lemma parseLine_level r lvl :
  In lvl levels ->
  parseLine r (lit "Level: " ++ lvl) =
  {| level := lvl; toxicPerson := toxicPerson r; behaviors := behaviors r;
     problem := problem r; suggestion := suggestion r |}.
Proof.
  intros Hin.
  destruct (@recognized_clean levels lvl (or_introl eq_refl) Hin)
    as (Hne & Hv & _).
  change (lit "Level: " ++ lvl) with (lit "Level:" ++ SPACE :: lvl).
  open_line "Level:"%string lvl Hne Hv.
  apply arrayIncludes_In in Hin; rewrite Hin; reflexivity.
Qed.

Lemma parseLine_toxicPerson r person :
  In person persons ->
  parseLine r (lit "ToxicPerson: " ++ person) =
  {| level := level r; toxicPerson := person; behaviors := behaviors r;
     problem := problem r; suggestion := suggestion r |}.
Proof.
  intros Hin.
  destruct (@recognized_clean persons person (or_intror eq_refl) Hin)
    as (Hne & Hv & _).
  change (lit "ToxicPerson: " ++ person)
    with (lit "ToxicPerson:" ++ SPACE :: person).
  open_line "ToxicPerson:"%string person Hne Hv.
  apply arrayIncludes_In in Hin; rewrite Hin; reflexivity.
Qed.

Lemma parseLine_behaviors r v :
  v <> [] -> trim v = v ->
  includes (lit "No toxic behaviors") v = false ->
  parseLine r (lit "Behaviors: " ++ v) =
  {| level := level r; toxicPerson := toxicPerson r;
     behaviors := behaviorItems v;
     problem := problem r; suggestion := suggestion r |}.
Proof.
  intros Hne Hv Hs.
  change (lit "Behaviors: " ++ v) with (lit "Behaviors:" ++ SPACE :: v).
  open_line "Behaviors:"%string v Hne Hv.
  rewrite (truthy_of_nonempty Hne), Hs; reflexivity.
Qed.

Lemma parseLine_problem r v :
  v <> [] -> trim v = v ->
  includes (lit "No significant issues") v = false ->
  parseLine r (lit "Problem: " ++ v) =
  {| level := level r; toxicPerson := toxicPerson r;
     behaviors := behaviors r; problem := v; suggestion := suggestion r |}.
Proof.
  intros Hne Hv Hs.
  change (lit "Problem: " ++ v) with (lit "Problem:" ++ SPACE :: v).
  open_line "Problem:"%string v Hne Hv.
  rewrite (truthy_of_nonempty Hne), Hs; reflexivity.
Qed.

Lemma parseLine_suggestion r v :
  v <> [] -> trim v = v ->
  includes (lit "Keep up the good communication") v = false ->
  parseLine r (lit "Suggestion: " ++ v) =
  {| level := level r; toxicPerson := toxicPerson r;
     behaviors := behaviors r; problem := problem r; suggestion := v |}.
Proof.
  intros Hne Hv Hs.
  change (lit "Suggestion: " ++ v) with (lit "Suggestion:" ++ SPACE :: v).
  open_line "Suggestion:"%string v Hne Hv.
  rewrite (truthy_of_nonempty Hne), Hs; reflexivity.
Qed.

(** The items of a comma separated list come back from the text that
    joins them. *)
Lemma split_join_items (x : jsstring) (xs : list jsstring) :
  Forall cleanItem (x :: xs) ->
  split COMMA (join (lit ", ") (x :: xs)) = x :: map (cons SPACE) xs.
Proof.
  revert x; induction xs as [|y ys IH]; intros x H.
  - inversion H as [|? ? [_ Hx] _]; subst.
    simpl; apply split_none; assumption.
  - inversion H as [|? ? [_ Hx] Hrest]; subst.
    change (join (lit ", ") (x :: y :: ys))
      with (x ++ COMMA :: SPACE :: join (lit ", ") (y :: ys)).
    rewrite (@split_app COMMA x _ Hx), split_cons_other by reflexivity.
    rewrite (IH y Hrest); reflexivity.
Qed.

Lemma trim_spaced_items (xs : list jsstring) :
  Forall cleanItem xs ->
  filter truthy (map trim (map (cons SPACE) xs)) = xs.
Proof.
  induction 1 as [|x xs [(Hne & Hv & _) _] _ IH]; [reflexivity|].
  simpl map; rewrite trim_after_space, Hv; simpl.
  rewrite (truthy_of_nonempty Hne), IH; reflexivity.
Qed.

Lemma behaviorItems_join (items : list jsstring) :
  items <> [] -> Forall cleanItem items ->
  behaviorItems (join (lit ", ") items) = items.
Proof.
  destruct items as [|x xs]; [congruence|]; intros _ H.
  unfold behaviorItems; rewrite (split_join_items H).
  inversion H as [|? ? [(Hne & Hv & _) _] Hrest]; subst.
  simpl map; rewrite Hv; simpl.
  rewrite (truthy_of_nonempty Hne), (trim_spaced_items Hrest); reflexivity.
Qed.

Lemma join_items_clean (items : list jsstring) :
  items <> [] -> Forall cleanItem items ->
  cleanValue (join (lit ", ") items).
Proof.
  destruct items as [|x xs]; [congruence|]; intros _.
  revert x; induction xs as [|y ys IH]; intros x H;
    inversion H as [|? ? [(Hne & Hv & Hlf) _] Hrest]; subst.
  - repeat split; assumption.
  - destruct (IH y Hrest) as (Hne' & Hv' & Hlf').
    destruct (trim_fixed Hv) as [Hs _], (trim_fixed Hv') as [_ He'].
    change (join (lit ", ") (x :: y :: ys))
      with (x ++ lit ", " ++ join (lit ", ") (y :: ys)).
    repeat split.
    + destruct x; [congruence | discriminate].
    + unfold trim; rewrite (trimStart_app _ Hne Hs), app_assoc.
      apply trimEnd_app; assumption.
    + rewrite !in_app_iff; intros [Hin | [Hin | Hin]];
        [apply Hlf, Hin | simpl in Hin; intuition discriminate
        | apply Hlf', Hin].
Qed.

Lemma no_LF_app (a b : jsstring) : ~ In LF a -> ~ In LF b -> ~ In LF (a ++ b).
Proof. rewrite in_app_iff; tauto. Qed.

(** C6.  The reply of the scenario parses to the record of the scenario;
    and a reply of five lines, in the order of the prompt, with a
    recognized level and toxic person, clean items for the behaviors and
    clean problem and suggestion, none holding its sentinel phrase,
    parses to exactly those values. *)
Theorem well_formed_reply_parsed :
  parseAnalysis
    (join [LF]
       [lit "Level: High";
        lit "ToxicPerson: Person A";
        lit "Behaviors: insults, sarcasm";
        lit "Problem: called other person names";
        lit "Suggestion: use respectful language"])
  = {| level := lit "High";
       toxicPerson := lit "Person A";
       behaviors := [lit "insults"; lit "sarcasm"];
       problem := lit "called other person names";
       suggestion := lit "use respectful language" |} /\
  forall lvl person items prob sugg,
    In lvl levels ->
    In person persons ->
    items <> [] -> Forall cleanItem items ->
    includes (lit "No toxic behaviors") (join (lit ", ") items) = false ->
    cleanValue prob ->
    includes (lit "No significant issues") prob = false ->
    cleanValue sugg ->
    includes (lit "Keep up the good communication") sugg = false ->
    parseAnalysis
      (join [LF]
         [lit "Level: " ++ lvl;
          lit "ToxicPerson: " ++ person;
          lit "Behaviors: " ++ join (lit ", ") items;
          lit "Problem: " ++ prob;
          lit "Suggestion: " ++ sugg])
    = {| level := lvl;
         toxicPerson := person;
         behaviors := items;
         problem := prob;
         suggestion := sugg |}.
Proof.
  split; [vm_compute; reflexivity|].
  intros lvl person items prob sugg Hlvl Hperson Hitems Hclean Hb
    (Hpne & Hpv & Hplf) Hp (Hsne & Hsv & Hslf) Hs.
  destruct (@recognized_clean levels lvl (or_introl eq_refl) Hlvl)
    as (_ & _ & Hllf).
  destruct (@recognized_clean persons person (or_intror eq_refl) Hperson)
    as (_ & _ & Hpelf).
  destruct (join_items_clean Hitems Hclean) as (Hbne & Hbv & Hblf).
  assert (forall label, ~ In LF (lit label) -> forall v, ~ In LF v ->
                        ~ In LF (lit label ++ v)) as Hline
      by (intros; apply no_LF_app; assumption).
  unfold parseAnalysis.
  change (join [LF] ?lines) with
    ((lit "Level: " ++ lvl) ++ LF ::
     (lit "ToxicPerson: " ++ person) ++ LF ::
     (lit "Behaviors: " ++ join (lit ", ") items) ++ LF ::
     (lit "Problem: " ++ prob) ++ LF ::
     (lit "Suggestion: " ++ sugg)).
  rewrite !split_app, split_none;
    try (apply Hline; [simpl; intuition discriminate | assumption]).
  cbn [fold_left].
  rewrite (parseLine_level _ Hlvl), (parseLine_toxicPerson _ Hperson),
    (parseLine_behaviors _ Hbne Hbv Hb), (parseLine_problem _ Hpne Hpv Hp),
    (parseLine_suggestion _ Hsne Hsv Hs).
  cbn [level toxicPerson behaviors problem suggestion].
  rewrite (behaviorItems_join Hitems Hclean); reflexivity.
Qed.

(** C6 at work on another reply. *)
Lemma well_formed_reply_parsed_witness :
  parseAnalysis
    (join [LF]
       [lit "Level: Low";
        lit "ToxicPerson: Both";
        lit "Behaviors: interrupting, dismissive tone, blame";
        lit "Problem: you never listen to me";
        lit "Suggestion: let each other finish"])
  = {| level := lit "Low";
       toxicPerson := lit "Both";
       behaviors := [lit "interrupting"; lit "dismissive tone"; lit "blame"];
       problem := lit "you never listen to me";
       suggestion := lit "let each other finish" |}.
Proof.
  refine (proj2 well_formed_reply_parsed (lit "Low") (lit "Both")
            [lit "interrupting"; lit "dismissive tone"; lit "blame"]
            (lit "you never listen to me") (lit "let each other finish")
            _ _ _ _ _ _ _ _ _).
  - simpl; auto.
  - simpl; auto.
  - discriminate.
  - repeat constructor; try discriminate; simpl; intuition discriminate.
  - vm_compute; reflexivity.
  - repeat split; try discriminate; simpl; intuition discriminate.
  - vm_compute; reflexivity.
  - repeat split; try discriminate; simpl; intuition discriminate.
  - vm_compute; reflexivity.
Defined.

(** ** The filter and single words *)

(** C8.  The code at the failing input: the text made of the word hello
    and a trailing space has one whitespace-delimited token and passes
    the filter. *)
Theorem one_word_with_trailing_space_accepted :
  wsTokens (lit "hello ") = [lit "hello"] /\
  isUserMessage (lit "hello ") = true.
Proof. vm_compute; split; reflexivity. Qed.

(** The extractors hand untrimmed element texts to the filter: on a
    WhatsApp page the single word is picked as the message of the node,
    ahead of the two-word message that follows it, and is then dropped
    once trimmed. *)
Example one_word_picked_by_extractor :
  extractWhatsAppMessage bubbleNode = lit "hello " /\
  extractNewMessages whatsappPage
    [{| mtype := childList; addedNodes := [bubbleNode] |}] = [].
Proof. vm_compute; split; reflexivity. Qed.

Lemma splitWhen_nonempty (f : char -> bool) (s : jsstring) :
  splitWhen f s <> [].
Proof.
  destruct s as [|c t]; simpl; [discriminate|].
  destruct (f c); [discriminate|].
  destruct (splitWhen f t); discriminate.
Qed.

Lemma splitWhen_app (f : char -> bool) (a b : jsstring) (c : char) :
  f c = true ->
  splitWhen f (a ++ c :: b) = splitWhen f a ++ splitWhen f b.
Proof.
  intros Hc; induction a as [|x a IH]; simpl; [rewrite Hc; reflexivity|].
  rewrite IH; destruct (f x); [reflexivity|].
  pose proof (splitWhen_nonempty f a).
  destruct (splitWhen f a); [congruence | reflexivity].
Qed.

Lemma wsTokens_nonempty (s : jsstring) :
  existsb (fun c => negb (isWhiteSpace c)) s = true -> wsTokens s <> [].
Proof.
  unfold wsTokens; induction s as [|c t IH]; simpl; [discriminate|].
  destruct (isWhiteSpace c); simpl; [exact IH | intros _].
  destruct (splitWhen isWhiteSpace t); discriminate.
Qed.

Lemma trimEnd_all_space (w : jsstring) :
  forallb isWhiteSpace w = true -> trimEnd w = [].
Proof.
  induction w as [|c w IH]; simpl; [reflexivity|].
  intros H; apply andb_true_iff in H as [Hc Hw].
  rewrite (IH Hw), Hc; reflexivity.
Qed.

Lemma trimEnd_app_space (p w : jsstring) :
  trimEnd w = [] -> trimEnd (p ++ w) = trimEnd p.
Proof.
  intros H; induction p as [|c p IH]; simpl; [assumption|].
  rewrite IH; reflexivity.
Qed.

Lemma space_or_not (w : jsstring) :
  forallb isWhiteSpace w = true \/
  existsb (fun c => negb (isWhiteSpace c)) w = true.
Proof.
  induction w as [|c w [IH|IH]]; simpl; [left; reflexivity | |];
    destruct (isWhiteSpace c); simpl; auto.
Qed.

(** What the filter does guarantee: a text without white space around it
    that has fewer than two whitespace-delimited tokens is rejected. *)
Lemma isUserMessage_rejects_trimmed_single_token (text : jsstring) :
  trim text = text -> (length (wsTokens text) < 2)%nat ->
  isUserMessage text = false.
Proof.
  intros Htrim Htokens.
  destruct (isUserMessage text) eqn:E; [exfalso | reflexivity].
  unfold isUserMessage in E; rewrite !andb_true_iff in E.
  destruct E as [[[[[[[Hne _] _] _] _] _] _] Hsplit].
  assert (text <> []) as Hne' by (destruct text; [discriminate | congruence]).
  destruct (in_dec N.eq_dec SPACE text) as [Hin | Hnot];
    [|rewrite (@split_none SPACE text Hnot) in Hsplit; discriminate].
  apply in_split in Hin as (a & b & ->).
  destruct (trim_fixed Htrim) as [Hs He].
  assert (wsTokens a <> []) as Ha.
  { apply wsTokens_nonempty.
    destruct (trimStart_head Hne' Hs) as (c & t & Heq & Hc).
    destruct a as [|x a]; simpl in Heq; inversion Heq; subst;
      [discriminate | simpl; rewrite Hc; reflexivity]. }
  assert (wsTokens b <> []) as Hb.
  { apply wsTokens_nonempty.
    destruct (space_or_not b) as [Hall | Hsome]; [exfalso | assumption].
    assert (trimEnd (SPACE :: b) = []) as Hw
        by (apply trimEnd_all_space; simpl; assumption).
    assert (trimEnd a = a ++ SPACE :: b) as Hx
        by (etransitivity;
            [symmetry; apply (@trimEnd_app_space a (SPACE :: b) Hw)
            | exact He]).
    pose proof (trimEnd_length a) as Hlen.
    rewrite Hx, length_app in Hlen; simpl in Hlen; lia. }
  unfold wsTokens in *.
  rewrite (@splitWhen_app isWhiteSpace a b SPACE eq_refl), filter_app,
    length_app in Htokens.
  destruct (filter truthy (splitWhen isWhiteSpace a)); [congruence|].
  destruct (filter truthy (splitWhen isWhiteSpace b)); [congruence|].
  simpl in Htokens; lia.
Qed.

(** * Further properties of the content script *)

(** ** Trimming twice *)

Lemma trimStart_idempotent (s : jsstring) :
  trimStart (trimStart s) = trimStart s.
Proof.
  induction s as [|c t IH]; simpl; [reflexivity|].
  destruct (isWhiteSpace c) eqn:Hc; [assumption | simpl; rewrite Hc; reflexivity].
Qed.

Lemma trimEnd_idempotent (s : jsstring) : trimEnd (trimEnd s) = trimEnd s.
Proof.
  induction s as [|c t IH]; simpl; [reflexivity|].
  destruct (trimEnd t) as [|x r] eqn:E.
  - destruct (isWhiteSpace c) eqn:Hc; simpl; rewrite ?Hc; reflexivity.
  - change (trimEnd (c :: x :: r))
      with (match trimEnd (x :: r) with
            | [] => if isWhiteSpace c then [] else [c]
            | t' => c :: t'
            end).
    rewrite IH; reflexivity.
Qed.

Lemma trimEnd_keeps_head (y : jsstring) :
  trimStart y = y -> trimStart (trimEnd y) = trimEnd y.
Proof.
  destruct y as [|c t]; [reflexivity|]; intros H.
  destruct (@trimStart_head (c :: t) ltac:(discriminate) H)
    as (c' & t' & E & Hc); inversion E; subst c' t'.
  simpl; destruct (trimEnd t); rewrite ?Hc; simpl; rewrite Hc; reflexivity.
Qed.

Lemma trim_idempotent (s : jsstring) : trim (trim s) = trim s.
Proof.
  unfold trim.
  rewrite (@trimEnd_keeps_head (trimStart s) (trimStart_idempotent s)).
  apply trimEnd_idempotent.
Qed.

Lemma includes_single (x : char) (s : jsstring) :
  includes [x] s = true <-> In x s.
Proof.
  induction s as [|c t IH]; simpl; [split; [discriminate | tauto]|].
  rewrite orb_true_iff, andb_true_r, N.eqb_eq, IH.
  split; intros [H | H]; auto.
Qed.

Lemma split_several (sep : char) (s : jsstring) :
  (1 <? length (split sep s))%nat = true -> In sep s.
Proof.
  intros H; destruct (in_dec N.eq_dec sep s) as [Hin | Hnot]; [assumption|].
  rewrite (@split_none sep s Hnot) in H; discriminate.
Qed.

(** ** What the filter accepts *)

(** X1.  A text the filter accepts has between 3 and 299 code units,
    holds a space and no commercial at, does not hold http, does not
    start like a clock time and has a character that is neither a digit,
    white space, a colon nor one of a, p, m in either case. *)
Theorem accepted_message_shape :
  forall text,
    isUserMessage text = true ->
    (3 <= length text < 300)%nat /\
    In SPACE text /\
    ~ In AT text /\
    includes (lit "http") text = false /\
    matchesTimestamp text = false /\
    exists c, In c text /\ isTimeChar c = false.
Proof.
  intros text H; unfold isUserMessage in H; rewrite !andb_true_iff in H.
  destruct H as [[[[[[[Hne Hmin] Hmax] Hclock] Htime] Hhttp] Hat] Hsplit].
  apply Nat.ltb_lt in Hmin, Hmax.
  apply negb_true_iff in Hclock, Htime, Hhttp, Hat.
  repeat split; try assumption; try lia.
  - apply split_several with (sep := SPACE); assumption.
  - intros Hin; apply (includes_single AT text) in Hin.
    change (lit "@") with [AT] in Hat; congruence.
  - unfold matchesOnlyTime in Htime; rewrite Hne in Htime; simpl in Htime.
    clear -Htime; induction text as [|c t IH]; simpl in Htime; [discriminate|].
    destruct (isTimeChar c) eqn:Hc.
    + destruct (IH Htime) as (c' & Hin & Hc'); exists c'; split;
        [right; assumption | assumption].
    + exists c; split; [left; reflexivity | assumption].
Qed.

Lemma accepted_message_shape_witness :
  In SPACE (lit "how are you") /\ ~ In AT (lit "how are you").
Proof.
  destruct (accepted_message_shape (lit "how are you") eq_refl)
    as (_ & Hspace & Hat & _).
  split; assumption.
Defined.

(** ** What the extraction returns *)

Lemma extractMessageText_trimmed href node :
  trim (extractMessageText href node) = extractMessageText href node.
Proof.
  unfold extractMessageText.
  destruct (truthy _); [apply trim_idempotent | reflexivity].
Qed.

Lemma setAdd_sound x s :
  extracted x -> NoDup s /\ Forall extracted s ->
  NoDup (setAdd x s) /\ Forall extracted (setAdd x s).
Proof.
  intros Hx [Hnd Hall]; unfold setAdd.
  destruct (arrayIncludes x s) eqn:E; [split; assumption|].
  split; [apply NoDup_snoc; [assumption | apply arrayIncludes_false, E]|].
  apply Forall_app; split; [assumption | constructor; [assumption | constructor]].
Qed.

Lemma addNodeText_sound href messages node :
  NoDup messages /\ Forall extracted messages ->
  NoDup (addNodeText href messages node) /\
  Forall extracted (addNodeText href messages node).
Proof.
  intros H; unfold addNodeText.
  destruct (N.eqb _ _); [|assumption].
  destruct (truthy _ && isUserMessage _) eqn:E; [|assumption].
  apply andb_true_iff in E as [_ E].
  apply setAdd_sound; [|assumption].
  split; [assumption | apply extractMessageText_trimmed].
Qed.

Lemma addMutationTexts_sound href messages mutation :
  NoDup messages /\ Forall extracted messages ->
  NoDup (addMutationTexts href messages mutation) /\
  Forall extracted (addMutationTexts href messages mutation).
Proof.
  intros H; unfold addMutationTexts.
  destruct (mtype mutation); try assumption.
  revert messages H; induction (addedNodes mutation) as [|node nodes IH];
    intros messages H; simpl; [assumption | apply IH, addNodeText_sound, H].
Qed.

(** X2.  The new messages of a batch are pairwise different, and each of
    them passes the filter and has no white space around it. *)
Theorem extractNewMessages_sound :
  forall href mutations,
    NoDup (extractNewMessages href mutations) /\
    Forall extracted (extractNewMessages href mutations).
Proof.
  intros href mutations; unfold extractNewMessages.
  assert (NoDup (@nil jsstring) /\ Forall extracted []) as H
      by (split; constructor).
  revert H; generalize (@nil jsstring).
  induction mutations as [|m mutations IH]; intros messages H; simpl;
    [assumption | apply IH, addMutationTexts_sound, H].
Qed.

(** X3.  A batch without a child-list record (attribute and character
    data changes only) brings no message: the analyzer is left as it was
    and no call is sent. *)
Theorem other_mutations_ignored :
  forall href now nowAtCall mutations st,
    Forall (fun m => mtype m <> childList) mutations ->
    extractNewMessages href mutations = [] /\
    onMutations href now nowAtCall mutations st = (st, None).
Proof.
  intros href now nowAtCall mutations st H.
  assert (extractNewMessages href mutations = []) as E.
  { unfold extractNewMessages; induction H as [|m l Hm _ IH]; simpl;
      [reflexivity|].
    unfold addMutationTexts at 2; destruct (mtype m); [congruence | |];
      exact IH. }
  split; [assumption|].
  unfold onMutations; rewrite E.
  destruct (_ || _); reflexivity.
Qed.

Lemma other_mutations_ignored_witness :
  onMutations somePage 40000 40001
    [{| mtype := characterData; addedNodes := [textNode (lit "hi there")] |}]
    (startAnalysis (settingsOf 10 10) newAnalyzer)
  = (startAnalysis (settingsOf 10 10) newAnalyzer, None).
Proof.
  refine (proj2 (@other_mutations_ignored somePage 40000%Z 40001%Z
            [{| mtype := characterData;
                addedNodes := [textNode (lit "hi there")] |}]
            (startAnalysis (settingsOf 10 10) newAnalyzer) _)).
  repeat constructor; simpl; discriminate.
Defined.

(** ** The buffer as a sliding window *)

Lemma pushAll_extends (msgs buffer : list jsstring) :
  exists added,
    fold_left pushNew msgs buffer = buffer ++ added /\
    incl added msgs /\
    forall m, In m added -> ~ In m buffer.
Proof.
  revert buffer; induction msgs as [|msg msgs IH]; intros buffer; simpl.
  - exists []; rewrite app_nil_r; repeat split; [apply incl_refl | tauto].
  - unfold pushNew at 2.
    destruct (negb (arrayIncludes msg buffer) && isUserMessage msg) eqn:E.
    + apply andb_true_iff in E as [E _]; apply negb_true_iff in E.
      destruct (IH (buffer ++ [msg])) as (added & Heq & Hincl & Hnew).
      exists (msg :: added); rewrite Heq, <- app_assoc; repeat split.
      * intros x [<- | Hx]; [left; reflexivity | right; apply Hincl, Hx].
      * intros m [<- | Hm]; [apply arrayIncludes_false, E|].
        intros Hin; apply (Hnew m Hm), in_or_app; left; assumption.
    + destruct (IH buffer) as (added & Heq & Hincl & Hnew).
      exists added; repeat split; [assumption | | assumption].
      intros x Hx; right; apply Hincl, Hx.
Qed.

Lemma truncate_suffix (cap : Z) (buffer : list jsstring) :
  exists dropped, buffer = dropped ++ truncate cap buffer.
Proof.
  unfold truncate, slice; destruct (cap <? _)%Z.
  - eexists; symmetry; apply firstn_skipn.
  - exists []; reflexivity.
Qed.

(** X4.  A batch keeps the buffer in order of arrival: the buffer after
    the batch is the old buffer followed by messages of the batch that
    were not in it, less the oldest entries. *)
Theorem batch_slides_window :
  forall href now nowAtCall mutations st,
    exists dropped added,
      messageBuffer st ++ added =
      dropped ++ messageBuffer
                   (fst (onMutations href now nowAtCall mutations st)) /\
      incl added (extractNewMessages href mutations) /\
      (forall m, In m added -> ~ In m (messageBuffer st)).
Proof.
  intros href now nowAtCall mutations st; rewrite onMutations_buffer.
  destruct (truncationRuns href mutations st).
  - destruct (pushAll_extends (extractNewMessages href mutations)
                (messageBuffer st)) as (added & Heq & Hincl & Hnew).
    destruct (truncate_suffix (maxMessages (settings st))
                (messageBuffer st ++ added)) as (dropped & Hcut).
    exists dropped, added; rewrite Heq; repeat split; assumption.
  - exists [], []; rewrite app_nil_r; repeat split;
      [intros x [] | intros m []].
Qed.

(** ** What the buffer holds *)

Lemma pushAll_Forall (P : jsstring -> Prop) (msgs buffer : list jsstring) :
  Forall P msgs -> Forall P buffer -> Forall P (fold_left pushNew msgs buffer).
Proof.
  intros Hmsgs Hbuf.
  destruct (pushAll_extends msgs buffer) as (added & -> & Hincl & _).
  apply Forall_app; split; [assumption|].
  rewrite Forall_forall in *; intros x Hx; apply Hmsgs, Hincl, Hx.
Qed.

Lemma truncate_Forall (P : jsstring -> Prop) (cap : Z) (buffer : list jsstring) :
  Forall P buffer -> Forall P (truncate cap buffer).
Proof.
  intros H; destruct (truncate_suffix cap buffer) as (dropped & E).
  rewrite E in H; apply Forall_app in H; tauto.
Qed.

Lemma completeAnalysis_frame outcome st :
  isActive (completeAnalysis outcome st) = isActive st /\
  observer (completeAnalysis outcome st) = observer st.
Proof.
  unfold completeAnalysis, displayAnalysis.
  destruct (sendToGemini outcome); simpl; [split; reflexivity|].
  destruct (_ && _); split; reflexivity.
Qed.

Lemma step_buffer_extracted w ev :
  Forall extracted (messageBuffer (analyzer w)) ->
  Forall extracted (messageBuffer (analyzer (step w ev))).
Proof.
  intros H.
  destruct ev as [s| | |href now nowAtCall mutations|outcome];
    cbn [step analyzer]; try assumption.
  - constructor.
  - destruct (observer (analyzer w)) eqn:Hobs; [|assumption].
    pose proof (onMutations_buffer href now nowAtCall mutations (analyzer w))
      as E.
    assert (Forall extracted
              (messageBuffer (fst (onMutations href now nowAtCall mutations
                                     (analyzer w))))) as H'.
    { rewrite E; destruct (truncationRuns _ _ _); [|assumption].
      apply truncate_Forall, pushAll_Forall; [|assumption].
      apply extractNewMessages_sound. }
    destruct (onMutations _ _ _ _ _) as [st [request|]]; exact H'.
  - destruct (pending w); [assumption|].
    cbn [analyzer]; rewrite completeAnalysis_buffer; assumption.
Qed.

Lemma run_buffer_extracted events w :
  Forall extracted (messageBuffer (analyzer w)) ->
  Forall extracted (messageBuffer (analyzer (run events w))).
Proof.
  revert w; induction events as [|ev events IH]; intros w H; simpl;
    [assumption | apply IH, step_buffer_extracted, H].
Qed.

(** X5.  Whatever happens on the page after the script has loaded, every
    message in the buffer passes the filter, has no white space around it
    and has at least two whitespace-delimited tokens. *)
Theorem buffer_holds_user_messages :
  forall events m,
    In m (messageBuffer (analyzer (run events newWorld))) ->
    isUserMessage m = true /\ trim m = m /\ (2 <= length (wsTokens m))%nat.
Proof.
  intros events m Hin.
  assert (Forall extracted (messageBuffer (analyzer (run events newWorld))))
    as H by (apply run_buffer_extracted; constructor).
  rewrite Forall_forall in H; destruct (H m Hin) as [Hok Htrim].
  repeat split; try assumption.
  destruct (le_lt_dec 2 (length (wsTokens m))) as [Hle | Hlt]; [assumption|].
  rewrite (@isUserMessage_rejects_trimmed_single_token m Htrim Hlt) in Hok.
  discriminate.
Qed.

Lemma buffer_holds_user_messages_witness :
  isUserMessage (lit "how are you") = true /\
  (2 <= length (wsTokens (lit "how are you")))%nat.
Proof.
  destruct (buffer_holds_user_messages
              (StartMessage (settingsOf 10 2) :: sampleSession)
              (lit "how are you"))
    as (Hok & _ & Htokens).
  - vm_compute; left; reflexivity.
  - split; assumption.
Defined.

(** ** The gate and the calls *)

(** X6.  Whatever happens on the page after the script has loaded, at
    most one remote call is pending, and one is pending exactly when
    [analysisInProgress] is set. *)
Theorem at_most_one_call_pending :
  forall events,
    (length (pending (run events newWorld)) <= 1)%nat /\
    (analysisInProgress (analyzer (run events newWorld)) = true <->
     pending (run events newWorld) <> []).
Proof.
  intros events; pose proof (one_call_at_a_time events) as H.
  unfold gateMatchesPending in H.
  destruct (analysisInProgress (analyzer (run events newWorld)));
    destruct (pending (run events newWorld)); simpl in *;
    try discriminate; split; try lia; split; congruence.
Qed.

Lemma onMutations_lastAnalysisTime href now nowAtCall mutations st :
  lastAnalysisTime (fst (onMutations href now nowAtCall mutations st)) =
  if fires (onMutations href now nowAtCall mutations st)
  then nowAtCall else lastAnalysisTime st.
Proof.
  unfold onMutations, analyzeConversation, fires.
  destruct (negb (isActive st) || analysisInProgress st); [reflexivity|].
  destruct (0 <? _)%nat; [|reflexivity].
  destruct (_ && _); simpl; [|reflexivity].
  destruct (_ || _); reflexivity.
Qed.

(** X7.  One turn of the event loop changes [lastAnalysisTime] only by
    sending a call: the event is then a batch, the new timestamp is the
    clock read at the call, one more call is pending, and the clock read
    by the callback was more than the delay past the old timestamp. *)
Theorem timestamp_moves_only_on_fire :
  forall w ev,
    lastAnalysisTime (analyzer (step w ev)) <> lastAnalysisTime (analyzer w) ->
    exists href now nowAtCall mutations,
      ev = Mutations href now nowAtCall mutations /\
      lastAnalysisTime (analyzer (step w ev)) = nowAtCall /\
      length (pending (step w ev)) = S (length (pending w)) /\
      (now - lastAnalysisTime (analyzer w)
       > delay (settings (analyzer w)))%Z.
Proof.
  intros w ev Hmoved.
  destruct ev as [s| | |href now nowAtCall mutations|outcome];
    cbn [step analyzer pending] in *; try (exfalso; apply Hmoved; reflexivity).
  - destruct (observer (analyzer w)); [|exfalso; apply Hmoved; reflexivity].
    pose proof (onMutations_lastAnalysisTime href now nowAtCall mutations
                  (analyzer w)) as Htime.
    pose proof (onMutations_fires href now nowAtCall mutations (analyzer w))
      as Hfires.
    unfold fires in *.
    destruct (onMutations _ _ _ _ _) as [st [request|]];
      cbn [analyzer pending fst snd] in *;
      [|exfalso; apply Hmoved; assumption].
    exists href, now, nowAtCall, mutations; repeat split; try assumption.
    + rewrite length_app; simpl; lia.
    + symmetry in Hfires; rewrite !andb_true_iff, Z.ltb_lt in Hfires; lia.
  - destruct (pending w); [exfalso; apply Hmoved; reflexivity|].
    cbn [analyzer] in Hmoved.
    rewrite completeAnalysis_lastAnalysisTime in Hmoved; congruence.
Qed.

Lemma timestamp_moves_only_on_fire_witness :
  lastAnalysisTime
    (analyzer (step startedWorld
                 (Mutations somePage 20000 20001
                    (batchOf [lit "hi there"; lit "how are you"]))))
  = 20001%Z.
Proof.
  destruct (timestamp_moves_only_on_fire startedWorld
              (Mutations somePage 20000 20001
                 (batchOf [lit "hi there"; lit "how are you"])))
    as (href & now & nowAtCall & mutations & Hev & Htime & _).
  - vm_compute; discriminate.
  - injection Hev as _ _ <- _; exact Htime.
Defined.

(** ** After a stop *)

Lemma step_stopped w ev :
  notStart ev = true ->
  isActive (analyzer w) = false /\ observer (analyzer w) = false /\
  messageBuffer (analyzer w) = [] ->
  (isActive (analyzer (step w ev)) = false /\
   observer (analyzer (step w ev)) = false /\
   messageBuffer (analyzer (step w ev)) = []) /\
  lastAnalysisTime (analyzer (step w ev)) = lastAnalysisTime (analyzer w) /\
  (length (pending (step w ev)) <= length (pending w))%nat.
Proof.
  intros Hev (Hactive & Hobs & Hbuf).
  destruct ev as [s| | |href now nowAtCall mutations|outcome];
    cbn [step analyzer pending notStart] in *; try discriminate.
  - repeat split; auto.
  - repeat split; auto.
  - rewrite Hobs; repeat split; auto.
  - destruct (pending w) as [|request rest] eqn:E;
      [repeat split; auto; rewrite E; auto|].
    cbn [analyzer pending].
    destruct (completeAnalysis_frame outcome (analyzer w)) as [-> ->].
    rewrite completeAnalysis_buffer, completeAnalysis_lastAnalysisTime.
    repeat split; auto.
    simpl; lia.
Qed.

(** X8.  After a stop message and until the next start message, whatever
    else happens, the session stays inactive, no observer is connected,
    the buffer stays empty, the timestamp of the last trigger stays what
    it was and no remote call is sent. *)
Theorem stopped_session_stays_silent :
  forall events w,
    forallb notStart events = true ->
    isActive (analyzer (run events (step w StopMessage))) = false /\
    observer (analyzer (run events (step w StopMessage))) = false /\
    messageBuffer (analyzer (run events (step w StopMessage))) = [] /\
    lastAnalysisTime (analyzer (run events (step w StopMessage)))
    = lastAnalysisTime (analyzer w) /\
    (length (pending (run events (step w StopMessage)))
     <= length (pending w))%nat.
Proof.
  intros events w.
  assert (isActive (analyzer (step w StopMessage)) = false /\
          observer (analyzer (step w StopMessage)) = false /\
          messageBuffer (analyzer (step w StopMessage)) = []) as Hinv
      by (repeat split).
  change (lastAnalysisTime (analyzer w))
    with (lastAnalysisTime (analyzer (step w StopMessage))).
  change (pending w) with (pending (step w StopMessage)).
  revert Hinv; generalize (step w StopMessage); clear w.
  induction events as [|ev events IH]; intros w Hinv Hev; simpl in *.
  - destruct Hinv as (? & ? & ?); repeat split; auto.
  - apply andb_true_iff in Hev as [Hev Hrest].
    destruct (@step_stopped w ev Hev Hinv) as (Hinv' & Htime & Hpending).
    destruct (IH (step w ev) Hinv' Hrest) as (? & ? & ? & ? & ?).
    repeat split; try assumption; [congruence | lia].
Qed.

Lemma stopped_session_stays_silent_witness :
  messageBuffer
    (analyzer (run [Mutations somePage 40000 40001
                      (batchOf [lit "are you there"; lit "please answer me"]);
                    CallSettled (replied sampleReply)]
                 (step (run sampleSession startedWorld) StopMessage)))
  = [].
Proof.
  destruct (stopped_session_stays_silent
              [Mutations somePage 40000 40001
                 (batchOf [lit "are you there"; lit "please answer me"]);
               CallSettled (replied sampleReply)]
              (run sampleSession startedWorld) eq_refl)
    as (_ & _ & Hbuf & _).
  exact Hbuf.
Defined.

(** ** When the call settles *)

(** X9.  However the call settles, the gate is released, the indicator
    is visible (also when it was closed in the meantime) and shows the
    analysis or an error in place of the loading card; the session flag,
    the observer, the settings, the buffer and the timestamp are left as
    they were. *)
Theorem settled_call_frame :
  forall outcome st,
    analysisInProgress (completeAnalysis outcome st) = false /\
    hidden (indicator (completeAnalysis outcome st)) = false /\
    ((exists view,
         content (indicator (completeAnalysis outcome st)) = AnalysisCard view)
     \/
     (exists message,
         content (indicator (completeAnalysis outcome st))
         = ErrorCard (lit "Analysis error: " ++ message))) /\
    isActive (completeAnalysis outcome st) = isActive st /\
    observer (completeAnalysis outcome st) = observer st /\
    settings (completeAnalysis outcome st) = settings st /\
    messageBuffer (completeAnalysis outcome st) = messageBuffer st /\
    lastAnalysisTime (completeAnalysis outcome st) = lastAnalysisTime st.
Proof.
  intros outcome st.
  destruct (completeAnalysis_frame outcome st) as [Hactive Hobs].
  rewrite completeAnalysis_settings, completeAnalysis_buffer,
    completeAnalysis_lastAnalysisTime, Hactive, Hobs.
  unfold completeAnalysis.
  destruct (sendToGemini outcome) as [message | analysis].
  - repeat split; right; exists message; reflexivity.
  - split; [reflexivity|]; split;
      [unfold displayAnalysis; destruct (_ && _); reflexivity|].
    split; [|repeat split].
    left; eexists; cbn [indicator setAnalysisInProgress].
    apply displayAnalysis_content.
Qed.

(** X10.  The remote call returns a text exactly when the response is a
    success whose body has no error payload and a text that is not
    empty, and the text returned is that text; it throws exactly on the
    failures of [RemoteCallError]. *)
Theorem sendToGemini_outcomes :
  forall outcome,
    (forall text,
        sendToGemini outcome = inr text <->
        text <> [] /\
        exists status,
          outcome = FetchResponse true status (BodyData None (Some text))) /\
    ((exists message, sendToGemini outcome = inl message) <->
     RemoteCallError outcome).
Proof.
  intros outcome; split.
  - intros text; split.
    + destruct outcome as [message | [|] status [message | [e|] [t|]]];
        simpl; try discriminate.
      destruct t; simpl; [discriminate|].
      intros H; injection H as <-; split; [discriminate | eauto].
    + intros (Hne & status & ->); simpl.
      destruct text; [congruence | reflexivity].
  - split; [|apply sendToGemini_error].
    intros (message & H).
    destruct outcome as [m | [|] status [m | [e|] [t|]]]; try constructor.
    destruct t; [constructor | discriminate].
Qed.

(** ** The streak and the cards *)

(** X11.  A cycle leaves the healthy conversation card in the indicator
    exactly when its reply parses to the clean result and the streak
    counter was at least 1 before. *)
Theorem positive_card_iff :
  forall analysis st,
    content (indicator (displayAnalysis analysis st))
    = AnalysisCard PositiveFeedback <->
    cleanResult (parseAnalysis analysis) = true /\
    (1 <= consecutiveEmptyAnalyses st)%N.
Proof.
  intros analysis st.
  rewrite displayAnalysis_content, displayAnalysis_counter.
  unfold renderAnalysis.
  destruct (cleanResult (parseAnalysis analysis)) eqn:E.
  - unfold cleanResult in E; apply andb_true_iff in E as [-> _].
    rewrite andb_true_r.
    destruct (N.leb_spec 2 (consecutiveEmptyAnalyses st + 1)); split;
      try (intros _; split; [reflexivity | lia]);
      try reflexivity; try discriminate.
    intros [_ H']; lia.
  - simpl; split; [discriminate | intros [? _]; discriminate].
Qed.

Lemma displayAll_snoc analyses analysis st :
  displayAll (analyses ++ [analysis]) st
  = displayAnalysis analysis (displayAll analyses st).
Proof. unfold displayAll; rewrite fold_left_app; reflexivity. Qed.

(** X12.  After a run of successful cycles the streak counter is the
    number of clean results at the end of the run, added to the counter
    before the run when every result of the run is clean. *)
Theorem streak_counts_trailing_clean :
  forall analyses st,
    consecutiveEmptyAnalyses (displayAll analyses st) =
    if forallb (fun a => cleanResult (parseAnalysis a)) analyses
    then (consecutiveEmptyAnalyses st + N.of_nat (length analyses))%N
    else N.of_nat (trailingClean analyses).
Proof.
  intros analyses st; induction analyses as [|a l IH] using rev_ind.
  - simpl; lia.
  - rewrite displayAll_snoc, displayAnalysis_counter, IH.
    rewrite forallb_app, length_app; unfold trailingClean.
    rewrite rev_app_distr; simpl.
    destruct (cleanResult (parseAnalysis a)); simpl;
      [|rewrite andb_false_r; reflexivity].
    rewrite andb_true_r.
    destruct (forallb _ l); unfold trailingClean; lia.
Qed.

Lemma recognized_cases (r : AnalysisResult) :
  In (level r) levels -> In (toxicPerson r) persons ->
  In (level r) [lit "Low"; lit "Medium"; lit "High"; lit "None"] /\
  In (toxicPerson r) [lit "Person A"; lit "Person B"; lit "Both"; lit "None"].
Proof. auto. Qed.

(** X13.  Whatever the reply, the card rendered from its parse is the
    healthy conversation card or a detail card whose circle goes with
    its level and whose two person statuses are one of: toxic and
    neutral, neutral and toxic, both moderate, both good. *)
Theorem rendered_card_consistent :
  forall analysis n,
    renderAnalysis n (parseAnalysis analysis) = PositiveFeedback \/
    exists card,
      renderAnalysis n (parseAnalysis analysis) = Detail card /\
      In (cardLevel card, cardEmoji card)
         [(lit "High", RedCircle); (lit "Medium", YellowCircle);
          (lit "Low", GreenCircle); (lit "None", WhiteCircle)] /\
      In (personAStatus card, personBStatus card)
         [(toxic, neutral); (neutral, toxic); (moderate, moderate);
          (good, good)].
Proof.
  intros analysis n.
  destruct (parseAnalysis_parsedFrom analysis) as (Hl & Hp & _).
  assert (In (level (parseAnalysis analysis)) levels) as Hlevel
      by (destruct Hl as [-> | [H _]]; [simpl; auto | assumption]).
  assert (In (toxicPerson (parseAnalysis analysis)) persons) as Hperson
      by (destruct Hp as [-> | [H _]]; [simpl; auto | assumption]).
  unfold renderAnalysis.
  destruct (_ && _); [left; reflexivity | right].
  eexists; split; [reflexivity|].
  cbn [cardLevel cardEmoji personAStatus personBStatus].
  generalize dependent (parseAnalysis analysis); intros r _ _ Hlevel Hperson.
  simpl in Hlevel, Hperson.
  destruct Hlevel as [<- | [<- | [<- | [<- | []]]]];
    destruct Hperson as [<- | [<- | [<- | [<- | []]]]];
    vm_compute; intuition.
Qed.

(** ** The parser, line by line *)

Lemma split_nonempty (sep : char) (s : jsstring) : split sep s <> [].
Proof.
  destruct s as [|c t]; simpl; [discriminate|].
  destruct (N.eqb c sep); [discriminate|].
  destruct (split sep t); discriminate.
Qed.

Lemma split_at_separator (sep : char) (a b : jsstring) :
  split sep (a ++ sep :: b) = split sep a ++ split sep b.
Proof.
  induction a as [|c a IH]; simpl; [rewrite N.eqb_refl; reflexivity|].
  rewrite IH; destruct (N.eqb c sep); [reflexivity|].
  pose proof (split_nonempty sep a).
  destruct (split sep a); [congruence | reflexivity].
Qed.

(** X14.  Parsing composes at a line feed: the parse of a text followed
    by a line feed and a second text is the loop over the lines of the
    second text, started from the parse of the first. *)
Theorem parseAnalysis_composes :
  forall first second,
    parseAnalysis (first ++ LF :: second)
    = fold_left parseLine (split LF second) (parseAnalysis first).
Proof.
  intros first second; unfold parseAnalysis.
  rewrite split_at_separator, fold_left_app; reflexivity.
Qed.

Lemma parseLine_unlabelled r line :
  isLabelled line = false -> parseLine r line = r.
Proof.
  unfold isLabelled, labels; cbn [existsb]; rewrite !orb_false_iff.
  intros (H1 & H2 & H3 & H4 & H5 & _).
  unfold parseLine; rewrite H1, H2, H3, H4, H5; reflexivity.
Qed.

(** X15.  Lines that do not start, once trimmed, with one of the five
    labels do not count: the parse of a text is the loop over its
    labelled lines only. *)
Theorem parseAnalysis_skips_unlabelled :
  forall analysis,
    parseAnalysis analysis
    = fold_left parseLine (filter isLabelled (split LF analysis))
        defaultResult.
Proof.
  intros analysis; unfold parseAnalysis.
  generalize defaultResult.
  induction (split LF analysis) as [|line lines IH]; intros r; simpl;
    [reflexivity|].
  destruct (isLabelled line) eqn:E; simpl; [apply IH|].
  rewrite (@parseLine_unlabelled r line E); apply IH.
Qed.

(** X16.  A Level line at the end of a reply decides the level whatever
    came before: its value when recognized, None otherwise.  A Problem
    line at the end whose value is empty or holds the sentinel phrase
    leaves the record as the earlier lines made it. *)
Theorem last_line_overrides :
  forall analysis line,
    ~ In LF line ->
    (startsWith (lit "Level:") (trim line) = true ->
     level (parseAnalysis (analysis ++ LF :: line))
     = if arrayIncludes (labelValue (lit "Level:") (trim line)) levels
       then labelValue (lit "Level:") (trim line) else lit "None") /\
    (startsWith (lit "Problem:") (trim line) = true ->
     truthy (labelValue (lit "Problem:") (trim line))
     && negb (includes (lit "No significant issues")
                (labelValue (lit "Problem:") (trim line))) = false ->
     parseAnalysis (analysis ++ LF :: line) = parseAnalysis analysis).
Proof.
  intros analysis line Hlf.
  rewrite parseAnalysis_composes, (@split_none LF line Hlf); cbn [fold_left].
  split.
  - intros H; unfold parseLine; rewrite H; reflexivity.
  - intros H Hvalue; unfold parseLine.
    destruct (trim line) as [|c t]; [discriminate|].
    assert (c = 80%N) as ->.
    { change (startsWith (lit "Problem:") (c :: t))
        with (N.eqb 80 c && startsWith (lit "roblem:") t) in H.
      apply andb_true_iff in H as [H _]; apply N.eqb_eq in H; congruence. }
    change (startsWith (lit "Level:") (80%N :: t)) with false.
    change (startsWith (lit "ToxicPerson:") (80%N :: t)) with false.
    change (startsWith (lit "Behaviors:") (80%N :: t)) with false.
    cbv beta iota zeta; rewrite H, Hvalue; reflexivity.
Qed.

Lemma last_line_overrides_witness :
  level (parseAnalysis (sampleReply ++ LF :: lit "Level: extreme"))
  = lit "None" /\
  parseAnalysis (sampleReply ++ LF :: lit "Problem: No significant issues")
  = parseAnalysis sampleReply.
Proof.
  split.
  - refine (proj1 (@last_line_overrides sampleReply (lit "Level: extreme") _)
              eq_refl).
    simpl; intuition discriminate.
  - refine (proj2 (@last_line_overrides sampleReply
                     (lit "Problem: No significant issues") _)
              eq_refl eq_refl).
    simpl; intuition discriminate.
Defined.

(** ** The transcript and the prompt *)

Lemma split_join_lines (lines : list jsstring) :
  lines <> [] -> Forall (fun line => ~ In LF line) lines ->
  split LF (join [LF] lines) = lines.
Proof.
  destruct lines as [|x rest]; [congruence|]; intros _.
  revert x; induction rest as [|y rest IH]; intros x H;
    inversion H as [|? ? Hx Hrest]; subst.
  - simpl; apply split_none; assumption.
  - change (join [LF] (x :: y :: rest))
      with (x ++ LF :: join [LF] (y :: rest)).
    rewrite split_at_separator, (@split_none LF x Hx), (IH y Hrest).
    reflexivity.
Qed.

Lemma labelTurns_lines index messages :
  Forall (fun m => ~ In LF m) messages ->
  Forall (fun line => ~ In LF line) (labelTurns index messages).
Proof.
  intros H; revert index; induction H as [|m l Hm _ IH]; intros index;
    cbn [labelTurns]; constructor; [|apply IH].
  rewrite !in_app_iff; intros [Hin | [Hin | [Hin | Hin]]];
    [ | destruct (Nat.even index) | | apply Hm, Hin];
    simpl in Hin; intuition discriminate.
Qed.

Lemma labelTurns_strip index messages :
  map (skipn 10) (labelTurns index messages) = messages.
Proof.
  revert index; induction messages as [|m l IH]; intros index; simpl;
    [reflexivity|].
  rewrite IH; destruct (Nat.even index); reflexivity.
Qed.

Lemma labelTurns_speaker messages :
  forall index i line,
    nth_error (labelTurns index messages) i = Some line ->
    startsWith
      (lit "Person " ++ (if Nat.even (index + i) then lit "A" else lit "B")
         ++ lit ": ") line = true.
Proof.
  induction messages as [|m l IH]; intros index [|i] line H; simpl in H;
    try discriminate.
  - injection H as <-; rewrite Nat.add_0_r.
    destruct (Nat.even index); reflexivity.
  - rewrite Nat.add_succ_r; apply (IH (S index) i line H).
Qed.

(** X17.  When the buffer is not empty and no message holds a line feed,
    the transcript has one line for each message, in order: the line
    without its first ten characters is the message, and the lines start
    with Person A and Person B in turn, from Person A. *)
Theorem transcript_round_trip :
  forall st,
    messageBuffer st <> [] ->
    Forall (fun m => ~ In LF m) (messageBuffer st) ->
    map (skipn 10) (split LF (formatConversation st)) = messageBuffer st /\
    forall i line,
      nth_error (split LF (formatConversation st)) i = Some line ->
      startsWith
        (lit "Person " ++ (if Nat.even i then lit "A" else lit "B")
           ++ lit ": ") line = true.
Proof.
  intros st Hne Hlf; unfold formatConversation.
  rewrite split_join_lines;
    [|destruct (messageBuffer st); [congruence | discriminate]
     |apply labelTurns_lines, Hlf].
  split; [apply labelTurns_strip|].
  intros i line H; apply (@labelTurns_speaker (messageBuffer st) 0 i line H).
Qed.

Lemma transcript_round_trip_witness :
  map (skipn 10) (split LF (formatConversation busyAnalyzer))
  = [lit "hi there"; lit "how are you"].
Proof.
  refine (proj1 (@transcript_round_trip busyAnalyzer _ _)).
  - vm_compute; discriminate.
  - vm_compute; repeat constructor; intuition discriminate.
Defined.

Lemma split_join_around (before after : list jsstring) (middle : jsstring) :
  Forall (fun line => ~ In LF line) before ->
  after <> [] -> Forall (fun line => ~ In LF line) after ->
  split LF (join [LF] (before ++ [middle] ++ after))
  = before ++ split LF middle ++ after.
Proof.
  intros Hbefore Hne Hafter; induction Hbefore as [|x l Hx _ IH].
  - destruct after as [|y rest]; [congruence|].
    change (join [LF] ([] ++ [middle] ++ y :: rest))
      with (middle ++ LF :: join [LF] (y :: rest)).
    rewrite split_at_separator, split_join_lines by (discriminate || assumption).
    reflexivity.
  - assert (exists y rest, l ++ [middle] ++ after = y :: rest) as (y & rest & E)
        by (destruct l; simpl; eauto).
    change ((x :: l) ++ [middle] ++ after) with (x :: l ++ [middle] ++ after).
    rewrite E in *.
    change (join [LF] (x :: y :: rest)) with (x ++ LF :: join [LF] (y :: rest)).
    rewrite split_at_separator, (@split_none LF x Hx), IH; reflexivity.
Qed.

(** X18.  The prompt holds the transcript as it is: its lines are the
    eight lines that end with Conversation, the lines of the transcript,
    and the nine lines of the answer format. *)
Theorem prompt_embeds_transcript :
  forall conversation,
    split LF (generatePrompt conversation)
    = promptHead ++ split LF conversation ++ promptTail.
Proof.
  intros conversation; unfold generatePrompt.
  apply split_join_around; [|discriminate|];
    repeat constructor; simpl; intuition discriminate.
Qed.

(** ** The popup and the page *)

(** X19.  A key the popup marks as valid is never refused by the toggle
    button; a key the button does not refuse is marked valid, or is
    marked invalid and has exactly thirty characters. *)
Theorem key_checks_agree :
  forall value delayValue countValue sensitivityValue outcome p,
    (validateApiKey (trim value) = ApiStatusValid ->
     keyRefused (toggleAnalysis value delayValue countValue sensitivityValue
                   outcome p) = false) /\
    (keyRefused (toggleAnalysis value delayValue countValue sensitivityValue
                   outcome p) = false ->
     validateApiKey (trim value) = ApiStatusValid \/
     (validateApiKey (trim value) = ApiStatusInvalid /\
      length (trim value) = 30%nat)).
Proof.
  intros value delayValue countValue sensitivityValue outcome p.
  unfold validateApiKey, toggleAnalysis.
  destruct (truthy (trim value)); cbn [negb];
    [|split; [discriminate | intros H; vm_compute in H; discriminate]].
  destruct (startsWith (lit "AIza") (trim value)); cbn [negb andb orb];
    [|split; [discriminate | intros H; vm_compute in H; discriminate]].
  destruct (Nat.ltb_spec 30 (length (trim value))) as [Hlong | Hshort];
    destruct (Nat.ltb_spec (length (trim value)) 30) as [Hlt | Hge];
    try lia.
  - split; [|auto].
    intros _; destruct outcome, (popupIsActive p); reflexivity.
  - split; [discriminate | intros H; vm_compute in H; discriminate].
  - split; [discriminate|].
    intros _; right; split; [reflexivity | lia].
Qed.

Lemma key_checks_agree_witness :
  validateApiKey thirtyKey = ApiStatusInvalid /\
  length thirtyKey = 30%nat.
Proof.
  destruct (key_checks_agree thirtyKey (Some 10%Z) (Some 10%Z) (lit "medium")
              MessageDelivered
              {| popupIsActive := false; storedIsActive := None;
                 storedKey := None |})
    as [_ H].
  destruct (H eq_refl) as [Hvalid | Hthirty];
    [vm_compute in Hvalid; discriminate | exact Hthirty].
Defined.

Lemma toggle_accepts value delayValue countValue sensitivityValue outcome p :
  keyRefused (toggleAnalysis value delayValue countValue sensitivityValue
                outcome p) = false ->
  truthy (trim value) = true /\
  startsWith (lit "AIza") (trim value) = true /\
  (30 <= length (trim value))%nat.
Proof.
  unfold toggleAnalysis.
  destruct (truthy (trim value)); cbn [negb];
    [|intros H; vm_compute in H; discriminate].
  destruct (startsWith (lit "AIza") (trim value)); cbn [negb orb];
    [|intros H; vm_compute in H; discriminate].
  destruct (Nat.ltb_spec (length (trim value)) 30) as [Hlt | Hge];
    [intros H; vm_compute in H; discriminate | auto].
Qed.

(** X20.  When a click on the toggle button gets a message to the
    content script, the key of the message starts with AIza and has at
    least thirty characters, the popup has flipped its state, the
    analyzer ends up active exactly when the popup says so and answers
    started or stopped accordingly, and a started analyzer holds the
    settings of the message. *)
Theorem popup_and_page_agree :
  forall value delayValue countValue sensitivityValue outcome p st message,
    delivered (toggleAnalysis value delayValue countValue sensitivityValue
                 outcome p) = Some message ->
    outcome = MessageDelivered /\
    apiKey (payload message) = Some (trim value) /\
    startsWith (lit "AIza") (trim value) = true /\
    (30 <= length (trim value))%nat /\
    popupIsActive (popupAfter (toggleAnalysis value delayValue countValue
                                 sensitivityValue outcome p))
    = negb (popupIsActive p) /\
    isActive (fst (onControlMessage message st))
    = negb (popupIsActive p) /\
    snd (onControlMessage message st)
    = Some (if popupIsActive p then lit "stopped" else lit "started") /\
    (popupIsActive p = false ->
     settings (fst (onControlMessage message st)) = payload message).
Proof.
  intros value delayValue countValue sensitivityValue outcome p st message.
  unfold toggleAnalysis.
  destruct (truthy (trim value)); cbn [negb delivered]; [|discriminate].
  destruct (startsWith (lit "AIza") (trim value)); cbn [negb orb delivered];
    [|discriminate].
  destruct (Nat.ltb_spec (length (trim value)) 30) as [Hlt | Hge];
    cbn [delivered]; [discriminate|].
  destruct outcome; cbn [delivered]; try discriminate;
    [|destruct (negb (popupIsActive p)); discriminate].
  intros H; injection H as <-.
  destruct (popupIsActive p); repeat split; auto; discriminate.
Qed.

Lemma popup_and_page_agree_witness :
  isActive
    (fst (onControlMessage
            {| action := lit "startAnalysis";
               payload := {| apiKey := Some thirtyKey;
                             analysisDelay := Some 10%Z;
                             messageCount := None;
                             sensitivity := Some (lit "medium") |} |}
            newAnalyzer))
  = true.
Proof.
  destruct (@popup_and_page_agree thirtyKey (Some 10%Z) None (lit "medium")
              MessageDelivered
              {| popupIsActive := false; storedIsActive := None;
                 storedKey := None |}
              newAnalyzer
              {| action := lit "startAnalysis";
                 payload := {| apiKey := Some thirtyKey;
                               analysisDelay := Some 10%Z;
                               messageCount := None;
                               sensitivity := Some (lit "medium") |} |}
              eq_refl)
    as (_ & _ & _ & _ & _ & Hactive & _).
  exact Hactive.
Defined.

(** X21.  A click that the key check lets through and that gets no
    message to the content script leaves the popup inactive when the
    sending failed, and flipped when there was no active tab. *)
Theorem toggle_without_delivery :
  forall value delayValue countValue sensitivityValue p,
    keyRefused (toggleAnalysis value delayValue countValue sensitivityValue
                  NoActiveTab p) = false ->
    (popupIsActive (popupAfter (toggleAnalysis value delayValue countValue
                                  sensitivityValue MessageFailed p)) = false /\
     storedIsActive (popupAfter (toggleAnalysis value delayValue countValue
                                   sensitivityValue MessageFailed p))
     = Some false /\
     delivered (toggleAnalysis value delayValue countValue sensitivityValue
                  MessageFailed p) = None) /\
    (popupIsActive (popupAfter (toggleAnalysis value delayValue countValue
                                  sensitivityValue NoActiveTab p))
     = negb (popupIsActive p) /\
     delivered (toggleAnalysis value delayValue countValue sensitivityValue
                  NoActiveTab p) = None).
Proof.
  intros value delayValue countValue sensitivityValue p Hkey.
  destruct (toggle_accepts _ _ _ _ _ _ Hkey) as (Ht & Hs & Hlen).
  unfold toggleAnalysis; rewrite Ht, Hs.
  destruct (Nat.ltb_spec (length (trim value)) 30) as [Hlt | Hge]; [lia|].
  cbn [negb orb]; destruct (popupIsActive p); repeat split.
Qed.

Lemma toggle_without_delivery_witness :
  popupIsActive
    (popupAfter (toggleAnalysis thirtyKey (Some 10%Z) (Some 10%Z)
                   (lit "medium") NoActiveTab
                   {| popupIsActive := false; storedIsActive := None;
                      storedKey := None |}))
  = true.
Proof.
  destruct (@toggle_without_delivery thirtyKey (Some 10%Z) (Some 10%Z)
              (lit "medium")
              {| popupIsActive := false; storedIsActive := None;
                 storedKey := None |} eq_refl)
    as [_ [Hflip _]].
  exact Hflip.
Defined.
